(** * Inventory search backend (src/backend/index.js)

    A shallow embedding of the Express handlers [GET /search] and
    [GET /categories] together with the JavaScript built-ins they call.

    Modelling conventions.
    - A JavaScript string is a [string]: a sequence of 8-bit code units, that
      is, a string whose UTF-16 code units are all below 256 (ASCII and
      Latin-1).  [toLowerCase], string comparison and [parseFloat] are
      modelled on that alphabet.
    - A JavaScript number is a [spec_float] at the binary64 format (the
      Standard Library's specification of IEEE 754), so NaN, the infinities
      and the signed zeros are all present.
    - A query parameter is an [option string]: [None] is [undefined].  The
      interface declares every parameter optional and textual.
    - The inventory ([data/inventory.json], loaded once at start-up) is a
      parameter of the handlers: a list of records with the declared fields.
    - With textual parameters and records carrying all their fields no
      statement of the handlers throws, so the [catch] branches (HTTP 500)
      are not reachable and are not part of the model. *)

From Stdlib Require Import Bool List ZArith NArith Ascii String Lia.
From Stdlib Require Import Sorted Permutation SpecFloat.
Import ListNotations.

Local Open Scope string_scope.
Local Open Scope bool_scope.

(** ** Ordered subsequences *)

Inductive Subseq {A : Type} : list A -> list A -> Prop :=
| Subseq_nil : Subseq [] []
| Subseq_skip (x : A) (l1 l2 : list A) : Subseq l1 l2 -> Subseq l1 (x :: l2)
| Subseq_keep (x : A) (l1 l2 : list A) : Subseq l1 l2 -> Subseq (x :: l1) (x :: l2).

(** [Infix t s]: [t] occurs in [s] as a contiguous run of code units. *)
Definition Infix (t s : string) : Prop :=
  exists before after : string, s = before ++ t ++ after.

(** Ascending order of strings: the lexicographic order of the code units,
    a proper prefix coming first. *)
Definition code_unit_lt (a b : string) : Prop := String.ltb a b = true.

(** ** The JavaScript built-ins used by the backend *)

Module JS.

(** *** Values of a query parameter: [undefined] or a string *)

Definition value := option string.

(** [ToBoolean]: [undefined] and the empty string are the falsy ones. *)
Definition ToBoolean (v : value) : bool :=
  match v with
  | None => false
  | Some s => negb (s =? "")
  end.

(** [v !== undefined && v !== ''] *)
Definition defined_nonempty (v : value) : bool :=
  match v with
  | None => false
  | Some s => true && negb (s =? "")
  end.

(** [ToString] of a parameter, as [parseFloat] applies it to its argument. *)
Definition ToString (v : value) : string :=
  match v with
  | None => "undefined"
  | Some s => s
  end.

(** [v || null], with [None] for [null] in the result. *)
Definition or_null (v : value) : option string :=
  if ToBoolean v then v else None.

(** *** Strings *)

(** Lower-casing of one code unit below 256: A-Z, and the Latin-1 capitals
    U+00C0..U+00DE except the multiplication sign U+00D7. *)
Definition toLowerCase_unit (c : ascii) : ascii :=
  let n := N_of_ascii c in
  if (((65 <=? n) && (n <=? 90)) ||
      ((192 <=? n) && (n <=? 222) && negb (n =? 215)))%N
  then ascii_of_N (n + 32)
  else c.

Fixpoint toLowerCase (s : string) : string :=
  match s with
  | EmptyString => EmptyString
  | String c s' => String (toLowerCase_unit c) (toLowerCase s')
  end.

(** [s.includes(t)]: is there a position of [s] at which [t] starts? *)
Fixpoint includes (s t : string) : bool :=
  prefix t s ||
  match s with
  | EmptyString => false
  | String _ s' => includes s' t
  end.

(** *** Numbers *)

Definition number := spec_float.

Definition prec : Z := 53.
Definition emax : Z := 1024.

Definition NaN : number := S754_nan.

Definition isNaN (x : number) : bool :=
  match x with
  | S754_nan => true
  | _ => false
  end.

(** Relational operators on numbers; each is false when an operand is NaN. *)
Definition ge (x y : number) : bool := SFleb y x.
Definition le (x y : number) : bool := SFleb x y.
Definition gt (x y : number) : bool := SFltb y x.

(** The number nearest to the integer [z] (ties to even). *)
Definition of_Z (z : Z) : number := binary_normalize prec emax z 0 false.

(** *** [parseFloat] *)

(** White space and line terminators below 256. *)
Definition isWhiteSpace (c : ascii) : bool :=
  let n := N_of_ascii c in
  (((9 <=? n) && (n <=? 13)) || (n =? 32) || (n =? 160))%N.

Fixpoint trimStart (s : string) : string :=
  match s with
  | String c s' => if isWhiteSpace c then trimStart s' else s
  | EmptyString => EmptyString
  end.

Definition digit_of (c : ascii) : option Z :=
  let n := N_of_ascii c in
  if ((48 <=? n) && (n <=? 57))%N then Some (Z.of_N (n - 48)) else None.

(** Reads the longest run of decimal digits at the head of [s], continuing
    the value [acc] and the digit count [n]; returns what follows. *)
Fixpoint scan_digits (s : string) (acc : Z) (n : nat) : Z * nat * string :=
  match s with
  | String c s' =>
      match digit_of c with
      | Some d => scan_digits s' (10 * acc + d)%Z (S n)
      | None => (acc, n, s)
      end
  | EmptyString => (acc, n, s)
  end.

(** The value of the ExponentPart at the head of [s]; 0 when there is none
    (an exponent indicator with no digit after it is not part of the
    literal). *)
Definition scan_exponent (s : string) : Z :=
  match s with
  | String c s' =>
      if (c =? "e")%char || (c =? "E")%char then
        let '(neg, s'') :=
          match s' with
          | String "+" t => (false, t)
          | String "-" t => (true, t)
          | _ => (false, s')
          end in
        let '(v, n, _) := scan_digits s'' 0 0 in
        match n with
        | O => 0
        | S _ => if neg then - v else v
        end
      else 0
  | EmptyString => 0
  end%Z.

(** The longest prefix that is a StrUnsignedDecimalLiteral. *)
Inductive literal :=
| LitInfinity
| LitDecimal (m : Z) (e10 : Z).   (* m * 10^e10 *)

Definition scan_unsigned (s : string) : option literal :=
  if prefix "Infinity" s then Some LitInfinity
  else
    let '(i, ni, r) := scan_digits s 0 0 in
    match r with
    | String "." r' =>
        let '(m, n, r'') := scan_digits r' i ni in
        match n with
        | O => None
        | S _ => Some (LitDecimal m (scan_exponent r'' - Z.of_nat (n - ni)))
        end
    | _ =>
        match ni with
        | O => None
        | S _ => Some (LitDecimal i (scan_exponent r))
        end
    end.

(** The number nearest to [m * 10^e10] (ties to even), with the sign
    [neg]: one correctly rounded division of integers. *)
Definition round_decimal (neg : bool) (m e10 : Z) : number :=
  match m with
  | Zpos p =>
      if (0 <=? e10)%Z
      then SFdiv prec emax (S754_finite neg (p * Z.to_pos (10 ^ e10)) 0)
                           (S754_finite false 1 0)
      else SFdiv prec emax (S754_finite neg p 0)
                           (S754_finite false (Z.to_pos (10 ^ (- e10))) 0)
  | _ => S754_zero neg
  end.

Definition parseFloat (s : string) : number :=
  let t := trimStart s in
  let '(neg, u) :=
    match t with
    | String "+" u => (false, u)
    | String "-" u => (true, u)
    | _ => (false, t)
    end in
  match scan_unsigned u with
  | None => NaN
  | Some LitInfinity => S754_infinity neg
  | Some (LitDecimal m e10) => round_decimal neg m e10
  end.

(** *** [Set] and [Array.prototype.sort] on strings *)

(** [new Set(xs)] spread back into an array: the distinct elements, each at
    the place of its first occurrence. *)
Definition Set_add (s : list string) (x : string) : list string :=
  if existsb (String.eqb x) s then s else s ++ [x].

Definition Set_of (xs : list string) : list string :=
  fold_left Set_add xs [].

(** [xs.sort()] with the default comparison: ascending order of the code
    units.  The order in which an engine moves the elements is its own
    choice; on strings the resulting array is determined, and it is
    computed here by stable insertion. *)
Fixpoint sort_insert (x : string) (l : list string) : list string :=
  match l with
  | [] => [x]
  | y :: l' => if String.ltb x y then x :: l else y :: sort_insert x l'
  end.

Definition sort (xs : list string) : list string :=
  fold_left (fun acc x => sort_insert x acc) xs [].

End JS.

Import JS.

(** ** The inventory records *)

Module InventoryItem.

Record t := {
  id : Z;
  product_name : string;
  category : string;
  price : number;
  quantity : Z;
  supplier : string;
  city : string
}.

End InventoryItem.

(** ** The handlers *)

Module Backend.

(** The [query] object echoed by a successful search; [None] is [null]. *)
Record Query := {
  echo_q : option string;
  echo_category : option string;
  echo_minPrice : option string;
  echo_maxPrice : option string
}.

(** The JSON bodies the two handlers send. *)
Inductive Body :=
| SearchSuccess (count : nat) (query : Query) (results : list InventoryItem.t)
| SearchFailure (error : string) (results : list InventoryItem.t)
| CategoriesSuccess (categories : list string).

Record Response := {
  status : nat;
  body : Body
}.

Definition success (r : Response) : bool :=
  match body r with
  | SearchSuccess _ _ _ => true
  | SearchFailure _ _ => false
  | CategoriesSuccess _ => true
  end.

Definition results (r : Response) : list InventoryItem.t :=
  match body r with
  | SearchSuccess _ _ rs => rs
  | SearchFailure _ rs => rs
  | CategoriesSuccess _ => []
  end.

Section Server.

(** The inventory loaded at start-up. *)
Variable inventoryData : list InventoryItem.t.

(** Case-insensitive partial match. *)
Definition matchesQuery (text : string) (query : value) : bool :=
  match query with
  | None => true
  | Some q =>
      if negb (ToBoolean query) then true
      else includes (toLowerCase text) (toLowerCase q)
  end.

(** Unique categories. *)
Definition getCategories : list string :=
  let categories := Set_of (map InventoryItem.category inventoryData) in
  sort categories.

(** The four filtering steps of [/search], in the order of the source;
    each one either replaces [results] by a filtered copy or leaves it. *)
Definition filterByName (q : value) (results : list InventoryItem.t) :=
  if ToBoolean q
  then filter (fun item => matchesQuery (InventoryItem.product_name item) q)
              results
  else results.

Definition filterByCategory (category : value)
                            (results : list InventoryItem.t) :=
  match category with
  | None => results
  | Some c =>
      if ToBoolean category && negb (c =? "all")
      then filter (fun item =>
                     toLowerCase (InventoryItem.category item)
                     =? toLowerCase c)
                  results
      else results
  end.

Definition filterByMinPrice (minPrice : value)
                            (results : list InventoryItem.t) :=
  if defined_nonempty minPrice then
    let min := parseFloat (ToString minPrice) in
    if negb (isNaN min)
    then filter (fun item => ge (InventoryItem.price item) min) results
    else results
  else results.

Definition filterByMaxPrice (maxPrice : value)
                            (results : list InventoryItem.t) :=
  if defined_nonempty maxPrice then
    let max := parseFloat (ToString maxPrice) in
    if negb (isNaN max)
    then filter (fun item => le (InventoryItem.price item) max) results
    else results
  else results.

(** The filtered [results] as they stand before the range validation. *)
Definition queryFilter (q category minPrice maxPrice : value)
  : list InventoryItem.t :=
  let results := inventoryData in
  let results := filterByName q results in
  let results := filterByCategory category results in
  let results := filterByMinPrice minPrice results in
  let results := filterByMaxPrice maxPrice results in
  results.

(** Does the range validation reject the request? *)
Definition invalidRange (minPrice maxPrice : value) : bool :=
  if ToBoolean minPrice && ToBoolean maxPrice then
    let min := parseFloat (ToString minPrice) in
    let max := parseFloat (ToString maxPrice) in
    negb (isNaN min) && negb (isNaN max) && gt min max
  else false.

(** [GET /search] *)
Definition search (q category minPrice maxPrice : value) : Response :=
  let results := queryFilter q category minPrice maxPrice in
  if invalidRange minPrice maxPrice then
    {| status := 400;
       body := SearchFailure
         "Invalid price range: minPrice cannot be greater than maxPrice"
         [] |}
  else
    {| status := 200;
       body := SearchSuccess
         (List.length results)
         {| echo_q := or_null q;
            echo_category := or_null category;
            echo_minPrice := or_null minPrice;
            echo_maxPrice := or_null maxPrice |}
         results |}.

(** [GET /categories] *)
Definition categories : Response :=
  let categories := getCategories in
  {| status := 200; body := CategoriesSuccess categories |}.

End Server.

End Backend.

Import Backend.

(** A small inventory used to evaluate the handlers. *)
Definition sample_item (i : Z) (name cat : string) (p : Z) : InventoryItem.t :=
  {| InventoryItem.id := i;
     InventoryItem.product_name := name;
     InventoryItem.category := cat;
     InventoryItem.price := of_Z p;
     InventoryItem.quantity := 1;
     InventoryItem.supplier := "Acme";
     InventoryItem.city := "Pune" |}.

Definition sample_inventory : list InventoryItem.t :=
  [ sample_item 1 "Laptop Dell XPS 15" "Electronics" 1200;
    sample_item 2 "Rocq in a Hurry" "Books" 100;
    sample_item 3 "USB cable" "Electronics" 5;
    sample_item 4 "Office chair" "Furniture" 500;
    sample_item 5 "Desk lamp" "Furniture" 45 ].

(** An inventory whose categories are Electronics, Books, Electronics. *)
Definition three_item_inventory : list InventoryItem.t :=
  [ sample_item 1 "Laptop Dell XPS 15" "Electronics" 1200;
    sample_item 2 "Rocq in a Hurry" "Books" 100;
    sample_item 3 "USB cable" "Electronics" 5 ].

(** ** The test a single record undergoes

    The four steps of [/search] each keep or drop a record on its own
    fields; these are the tests they apply, step by step. *)

Definition nameOk (q : value) (item : InventoryItem.t) : bool :=
  if ToBoolean q
  then matchesQuery (InventoryItem.product_name item) q
  else true.

Definition categoryOk (category : value) (item : InventoryItem.t) : bool :=
  match category with
  | None => true
  | Some c =>
      if ToBoolean category && negb (c =? "all")
      then toLowerCase (InventoryItem.category item) =? toLowerCase c
      else true
  end.

Definition minPriceOk (minPrice : value) (item : InventoryItem.t) : bool :=
  if defined_nonempty minPrice then
    let min := parseFloat (ToString minPrice) in
    if negb (isNaN min) then ge (InventoryItem.price item) min else true
  else true.

Definition maxPriceOk (maxPrice : value) (item : InventoryItem.t) : bool :=
  if defined_nonempty maxPrice then
    let max := parseFloat (ToString maxPrice) in
    if negb (isNaN max) then le (InventoryItem.price item) max else true
  else true.

Definition satisfies (q category minPrice maxPrice : value)
                     (item : InventoryItem.t) : bool :=
  nameOk q item && categoryOk category item &&
  minPriceOk minPrice item && maxPriceOk maxPrice item.

(** The [count] field of a response body, when it has one. *)
Definition count (r : Response) : option nat :=
  match body r with
  | SearchSuccess n _ _ => Some n
  | _ => None
  end.

(** The [error] field of a response body, when it has one. *)
Definition error_of (r : Response) : option string :=
  match body r with
  | SearchFailure e _ => Some e
  | _ => None
  end.

(** ** The client (src/frontend/src/pages/index.tsx)

    The page keeps the form fields and the committed search parameters in
    React state; [searchInventory] and [fetchCategories] call the backend
    through axios.

    Modelling conventions.
    - A [URLSearchParams] is the list of the appended pairs, in order.  Its
      serialisation into the URL and Express's parsing of the URL back into
      [req.query] are taken as one step that delivers, for a name appended
      once, the appended string, and [undefined] for a name never appended.
    - [axios.get] resolves with the body when the status is in 200..299 and
      rejects with an [AxiosError] carrying the status otherwise (its default
      [validateStatus]); failures of the network are not modelled.
    - A promise is its settled outcome: [inl] the value it resolves with,
      [inr] what it rejects with.
    - One render of [Home] is a [state]; an event handler maps the state of
      the render it was created in to the next state. *)

Module Frontend.

Module SearchParams.

Record t := {
  searchQuery : string;
  category : string;
  minPrice : string;
  maxPrice : string
}.

End SearchParams.

(** *** The request *)

Definition URLSearchParams := list (string * string).

Definition append (queryParams : URLSearchParams) (name v : string)
  : URLSearchParams :=
  (queryParams ++ [(name, v)])%list.

(** [req.query[name]] on the server for the query string of [queryParams]. *)
Definition req_query (queryParams : URLSearchParams) (name : string) : value :=
  match find (fun p => fst p =? name) queryParams with
  | Some p => Some (snd p)
  | None => None
  end.

(** [GET /search?...] as the backend over [store] answers it. *)
Definition get_search (store : list InventoryItem.t)
                      (queryParams : URLSearchParams) : Response :=
  search store
         (req_query queryParams "q")
         (req_query queryParams "category")
         (req_query queryParams "minPrice")
         (req_query queryParams "maxPrice").

(** What a rejected promise carries. *)
Inductive Thrown :=
| AxiosError (status : nat)
| Error (message : string).

Definition axios_get (r : Response) : Body + Thrown :=
  if (200 <=? status r)%nat && (status r <? 300)%nat
  then inl (body r)
  else inr (AxiosError (status r)).

(** *** API functions *)

Definition fetchCategories (store : list InventoryItem.t)
  : list string + Thrown :=
  match axios_get (categories store) with
  | inr e => inr e
  | inl data =>
      match data with
      | CategoriesSuccess cs => inl cs      (* data.categories *)
      | _ => inl []                         (* undefined || [] *)
      end
  end.

(** The query parameters [searchInventory] builds. *)
Definition queryParams_of (params : SearchParams.t) : URLSearchParams :=
  let queryParams := [] in
  let queryParams :=
    if ToBoolean (Some (SearchParams.searchQuery params))
    then append queryParams "q" (SearchParams.searchQuery params)
    else queryParams in
  let queryParams :=
    if ToBoolean (Some (SearchParams.category params))
       && negb (SearchParams.category params =? "all")
    then append queryParams "category" (SearchParams.category params)
    else queryParams in
  let queryParams :=
    if ToBoolean (Some (SearchParams.minPrice params))
    then append queryParams "minPrice" (SearchParams.minPrice params)
    else queryParams in
  let queryParams :=
    if ToBoolean (Some (SearchParams.maxPrice params))
    then append queryParams "maxPrice" (SearchParams.maxPrice params)
    else queryParams in
  queryParams.

Definition searchInventory (store : list InventoryItem.t)
                           (params : SearchParams.t)
  : list InventoryItem.t + Thrown :=
  let queryParams := queryParams_of params in
  match axios_get (get_search store queryParams) with
  | inr e => inr e
  | inl data =>
      match data with
      | SearchFailure e _ =>              (* data.success === false *)
          inr (Error (if ToBoolean (Some e) then e else "Search failed"))
      | SearchSuccess _ _ rs => inl rs    (* data.results *)
      | CategoriesSuccess _ => inl []     (* undefined || [] *)
      end
  end.

(** *** The page *)

Module Home.

Record state := {
  searchQuery : string;
  category : string;
  minPrice : string;
  maxPrice : string;
  searchParams : SearchParams.t;
  validationError : string
}.

(** The state of the first render. *)
Definition initial : state :=
  {| searchQuery := "";
     category := "all";
     minPrice := "";
     maxPrice := "";
     searchParams :=
       {| SearchParams.searchQuery := "";
          SearchParams.category := "all";
          SearchParams.minPrice := "";
          SearchParams.maxPrice := "" |};
     validationError := "" |}.

Definition setSearchQuery (v : string) (st : state) : state :=
  {| searchQuery := v;
     category := category st;
     minPrice := minPrice st;
     maxPrice := maxPrice st;
     searchParams := searchParams st;
     validationError := validationError st |}.

Definition setCategory (v : string) (st : state) : state :=
  {| searchQuery := searchQuery st;
     category := v;
     minPrice := minPrice st;
     maxPrice := maxPrice st;
     searchParams := searchParams st;
     validationError := validationError st |}.

Definition setMinPrice (v : string) (st : state) : state :=
  {| searchQuery := searchQuery st;
     category := category st;
     minPrice := v;
     maxPrice := maxPrice st;
     searchParams := searchParams st;
     validationError := validationError st |}.

Definition setMaxPrice (v : string) (st : state) : state :=
  {| searchQuery := searchQuery st;
     category := category st;
     minPrice := minPrice st;
     maxPrice := v;
     searchParams := searchParams st;
     validationError := validationError st |}.

Definition setValidationError (v : string) (st : state) : state :=
  {| searchQuery := searchQuery st;
     category := category st;
     minPrice := minPrice st;
     maxPrice := maxPrice st;
     searchParams := searchParams st;
     validationError := v |}.

Definition setSearchParams (v : SearchParams.t) (st : state) : state :=
  {| searchQuery := searchQuery st;
     category := category st;
     minPrice := minPrice st;
     maxPrice := maxPrice st;
     searchParams := v;
     validationError := validationError st |}.

(** The price range check of [handleSearch]. *)
Definition rangeRejected (st : state) : bool :=
  ToBoolean (Some (minPrice st)) && ToBoolean (Some (maxPrice st)) &&
  gt (parseFloat (minPrice st)) (parseFloat (maxPrice st)).

Definition handleSearch (st : state) : state :=
  if rangeRejected st then
    setValidationError "Minimum price cannot be greater than maximum price" st
  else
    setSearchParams
      {| SearchParams.searchQuery := searchQuery st;
         SearchParams.category := category st;
         SearchParams.minPrice := minPrice st;
         SearchParams.maxPrice := maxPrice st |}
      (setValidationError "" st).

Definition handleReset (st : state) : state :=
  setSearchParams
    {| SearchParams.searchQuery := "";
       SearchParams.category := "all";
       SearchParams.minPrice := "";
       SearchParams.maxPrice := "" |}
    (setValidationError ""
       (setMaxPrice "" (setMinPrice "" (setCategory "all"
          (setSearchQuery "" st))))).

(** What the user can do to the form. *)
Inductive event :=
| ChangeSearchQuery (v : string)
| ChangeCategory (v : string)
| ChangeMinPrice (v : string)
| ChangeMaxPrice (v : string)
| Submit
| Reset.

Definition step (st : state) (e : event) : state :=
  match e with
  | ChangeSearchQuery v => setSearchQuery v st
  | ChangeCategory v => setCategory v st
  | ChangeMinPrice v => setMinPrice v st
  | ChangeMaxPrice v => setMaxPrice v st
  | Submit => handleSearch st
  | Reset => handleReset st
  end.

Definition run (es : list event) : state := fold_left step es initial.

End Home.

End Frontend.

(** The committed search parameters have a price range the backend
    accepts. *)
Definition committed_ok (st : Frontend.Home.state) : Prop :=
  invalidRange
    (Some (Frontend.SearchParams.minPrice (Frontend.Home.searchParams st)))
    (Some (Frontend.SearchParams.maxPrice (Frontend.Home.searchParams st)))
  = false.

(** * Properties *)

(** ** Subsequences and [filter] *)

Section SubseqFacts.

Context {A : Type}.

Lemma Subseq_refl (l : list A) : Subseq l l.
Proof. induction l; constructor; assumption. Qed.

Lemma Subseq_trans (l1 l2 l3 : list A) :
  Subseq l1 l2 -> Subseq l2 l3 -> Subseq l1 l3.
Proof.
  intros H12 H23. revert l1 H12.
  induction H23 as [ | x l2 l3 _ IH | x l2 l3 _ IH ]; intros l1 H12.
  - assumption.
  - apply Subseq_skip, IH, H12.
  - inversion H12; subst.
    + apply Subseq_skip, IH. assumption.
    + apply Subseq_keep, IH. assumption.
Qed.

Lemma Subseq_filter (f : A -> bool) (l : list A) : Subseq (filter f l) l.
Proof.
  induction l as [ | x l IH ]; simpl.
  - constructor.
  - destruct (f x); constructor; assumption.
Qed.

Lemma Subseq_In (l1 l2 : list A) :
  Subseq l1 l2 -> forall x, In x l1 -> In x l2.
Proof.
  induction 1 as [ | y l1 l2 _ IH | y l1 l2 _ IH ]; intros x Hx.
  - assumption.
  - right. apply IH, Hx.
  - destruct Hx as [ -> | Hx ]; [ left; reflexivity | right; apply IH, Hx ].
Qed.

(** Whatever test [P] singles records out, a subsequence holds no more of
    them than the sequence it is drawn from. *)
Lemma Subseq_count (l1 l2 : list A) :
  Subseq l1 l2 ->
  forall P : A -> bool,
    List.length (filter P l1) <= List.length (filter P l2).
Proof.
  induction 1 as [ | y l1 l2 _ IH | y l1 l2 _ IH ]; intros P; simpl.
  - apply le_n.
  - specialize (IH P). destruct (P y); simpl; lia.
  - specialize (IH P). destruct (P y); simpl; lia.
Qed.

Lemma filter_filter (f g : A -> bool) (l : list A) :
  filter g (filter f l) = filter (fun x => f x && g x) l.
Proof.
  induction l as [ | x l IH ]; simpl; [ reflexivity | ].
  destruct (f x); simpl; [ destruct (g x) | ]; rewrite IH; reflexivity.
Qed.

End SubseqFacts.

(** ** Truthiness of a parameter *)

Lemma defined_nonempty_ToBoolean (v : value) :
  defined_nonempty v = ToBoolean v.
Proof. destruct v; reflexivity. Qed.

Lemma ToBoolean_Some (s : string) :
  ToBoolean (Some s) = true <-> s <> "".
Proof.
  unfold ToBoolean. destruct (String.eqb_spec s ""); simpl; split;
    intros; congruence.
Qed.

Lemma parseFloat_empty : parseFloat "" = NaN.
Proof. reflexivity. Qed.

Lemma isNaN_parse_falsy (v : value) :
  ToBoolean v = false -> isNaN (parseFloat (ToString v)) = true.
Proof.
  destruct v as [ s | ]; simpl.
  - destruct (String.eqb_spec s ""); [ subst; reflexivity | discriminate ].
  - reflexivity.
Qed.

(** ** Each filtering step yields a subsequence *)

Section Steps.

Variable l : list InventoryItem.t.

Lemma filterByName_Subseq q : Subseq (filterByName q l) l.
Proof.
  unfold filterByName. destruct (ToBoolean q);
    [ apply Subseq_filter | apply Subseq_refl ].
Qed.

Lemma filterByCategory_Subseq c : Subseq (filterByCategory c l) l.
Proof.
  unfold filterByCategory. destruct c as [ c | ]; [ | apply Subseq_refl ].
  destruct (ToBoolean (Some c) && negb (c =? "all"));
    [ apply Subseq_filter | apply Subseq_refl ].
Qed.

Lemma filterByMinPrice_Subseq v : Subseq (filterByMinPrice v l) l.
Proof.
  unfold filterByMinPrice. destruct (defined_nonempty v); cbv zeta;
    [ | apply Subseq_refl ].
  destruct (negb (isNaN (parseFloat (ToString v))));
    [ apply Subseq_filter | apply Subseq_refl ].
Qed.

Lemma filterByMaxPrice_Subseq v : Subseq (filterByMaxPrice v l) l.
Proof.
  unfold filterByMaxPrice. destruct (defined_nonempty v); cbv zeta;
    [ | apply Subseq_refl ].
  destruct (negb (isNaN (parseFloat (ToString v))));
    [ apply Subseq_filter | apply Subseq_refl ].
Qed.

End Steps.

Lemma queryFilter_Subseq store q c mn mx :
  Subseq (queryFilter store q c mn mx) store.
Proof.
  unfold queryFilter; cbv zeta.
  eapply Subseq_trans; [ apply filterByMaxPrice_Subseq | ].
  eapply Subseq_trans; [ apply filterByMinPrice_Subseq | ].
  eapply Subseq_trans; [ apply filterByCategory_Subseq | ].
  apply filterByName_Subseq.
Qed.

Lemma search_results_cases store q c mn mx :
  results (search store q c mn mx) = [] \/
  results (search store q c mn mx) = queryFilter store q c mn mx.
Proof.
  unfold search; cbv zeta. destruct (invalidRange mn mx); [ left | right ];
    reflexivity.
Qed.

Lemma Subseq_nil_l {A : Type} (l : list A) : Subseq [] l.
Proof. induction l; constructor; assumption. Qed.

(** C1.  The records a search returns form a subsequence of the inventory:
    they are drawn from it in its order, so each returned record is a record
    of the inventory, and no test on records selects more of the output than
    of the inventory (no record is returned more often than it is stored).
    The same holds of the filtered list itself, and with no criterion
    supplied the filter returns the inventory unchanged. *)
Theorem search_results_subsequence :
  forall (store : list InventoryItem.t) (q c mn mx : value),
    let filtered := queryFilter store q c mn mx in
    let out := results (search store q c mn mx) in
    Subseq filtered store /\
    Subseq out store /\
    (forall r, In r out -> In r store) /\
    (forall P : InventoryItem.t -> bool,
        List.length (filter P out) <= List.length (filter P store)) /\
    queryFilter store None None None None = store.
Proof.
  intros store q c mn mx filtered out.
  assert (Hf : Subseq filtered store) by apply queryFilter_Subseq.
  assert (Ho : Subseq out store).
  { subst out. destruct (search_results_cases store q c mn mx) as [ -> | -> ];
      [ apply Subseq_nil_l | exact Hf ]. }
  repeat split.
  - exact Hf.
  - exact Ho.
  - apply Subseq_In, Ho.
  - apply Subseq_count, Ho.
Qed.

Lemma search_results_subsequence_witness :
  Subseq (results (search sample_inventory (Some "a") (Some "furniture")
                          (Some "40") None))
         sample_inventory /\
  In (sample_item 5 "Desk lamp" "Furniture" 45) sample_inventory.
Proof.
  pose proof (search_results_subsequence
                sample_inventory (Some "a") (Some "furniture") (Some "40") None)
    as (_ & Hsub & Hin & _).
  split; [ exact Hsub | ].
  apply Hin. vm_compute. right. left. reflexivity.
Defined.

(** C8.  A search with no parameter answers 200 with [success: true]; its
    results are the whole inventory in its order, its count is the size of
    the inventory, and every echoed parameter is null. *)
Theorem search_without_parameters :
  forall store : list InventoryItem.t,
    search store None None None None
    = {| status := 200;
         body := SearchSuccess (List.length store)
                   {| echo_q := None; echo_category := None;
                      echo_minPrice := None; echo_maxPrice := None |}
                   store |}.
Proof. intros store. reflexivity. Qed.

(** ** The range validation and the price bounds *)

Lemma invalidRange_true_iff (mn mx : value) :
  invalidRange mn mx = true <->
  isNaN (parseFloat (ToString mn)) = false /\
  isNaN (parseFloat (ToString mx)) = false /\
  gt (parseFloat (ToString mn)) (parseFloat (ToString mx)) = true.
Proof.
  unfold invalidRange; cbv zeta.
  destruct (ToBoolean mn) eqn:Emn; simpl.
  - destruct (ToBoolean mx) eqn:Emx; simpl.
    + rewrite !andb_true_iff, !negb_true_iff. tauto.
    + apply isNaN_parse_falsy in Emx. rewrite Emx.
      split; [ discriminate | intros (_ & H & _); discriminate ].
  - apply isNaN_parse_falsy in Emn. rewrite Emn.
    split; [ discriminate | intros (H & _); discriminate ].
Qed.

Lemma search_valid store q c mn mx :
  invalidRange mn mx = false ->
  search store q c mn mx
  = {| status := 200;
       body := SearchSuccess
                 (List.length (queryFilter store q c mn mx))
                 {| echo_q := or_null q; echo_category := or_null c;
                    echo_minPrice := or_null mn; echo_maxPrice := or_null mx |}
                 (queryFilter store q c mn mx) |}.
Proof. intros H. unfold search; cbv zeta. rewrite H. reflexivity. Qed.

Lemma filterByMinPrice_NaN (v : value) (l : list InventoryItem.t) :
  isNaN (parseFloat (ToString v)) = true -> filterByMinPrice v l = l.
Proof.
  intros H. unfold filterByMinPrice; cbv zeta. rewrite H; simpl.
  destruct (defined_nonempty v); reflexivity.
Qed.

Lemma filterByMaxPrice_NaN (v : value) (l : list InventoryItem.t) :
  isNaN (parseFloat (ToString v)) = true -> filterByMaxPrice v l = l.
Proof.
  intros H. unfold filterByMaxPrice; cbv zeta. rewrite H; simpl.
  destruct (defined_nonempty v); reflexivity.
Qed.

Lemma filterByMinPrice_number (v : value) (l : list InventoryItem.t) :
  isNaN (parseFloat (ToString v)) = false ->
  filterByMinPrice v l
  = filter (fun item => ge (InventoryItem.price item)
                           (parseFloat (ToString v))) l.
Proof.
  intros H. unfold filterByMinPrice; cbv zeta. rewrite H; simpl.
  rewrite defined_nonempty_ToBoolean.
  destruct (ToBoolean v) eqn:E; [ reflexivity | ].
  apply isNaN_parse_falsy in E. congruence.
Qed.

Lemma filterByMaxPrice_number (v : value) (l : list InventoryItem.t) :
  isNaN (parseFloat (ToString v)) = false ->
  filterByMaxPrice v l
  = filter (fun item => le (InventoryItem.price item)
                           (parseFloat (ToString v))) l.
Proof.
  intros H. unfold filterByMaxPrice; cbv zeta. rewrite H; simpl.
  rewrite defined_nonempty_ToBoolean.
  destruct (ToBoolean v) eqn:E; [ reflexivity | ].
  apply isNaN_parse_falsy in E. congruence.
Qed.

Lemma invalidRange_NaN_l mn mx :
  isNaN (parseFloat (ToString mn)) = true -> invalidRange mn mx = false.
Proof.
  intros H. destruct (invalidRange mn mx) eqn:E; [ | reflexivity ].
  apply invalidRange_true_iff in E. destruct E as (E & _). congruence.
Qed.

Lemma invalidRange_NaN_r mn mx :
  isNaN (parseFloat (ToString mx)) = true -> invalidRange mn mx = false.
Proof.
  intros H. destruct (invalidRange mn mx) eqn:E; [ | reflexivity ].
  apply invalidRange_true_iff in E. destruct E as (_ & E & _). congruence.
Qed.

(** C2.  When both price parameters parse to numbers and the minimum is
    greater than the maximum, the search answers 400 with [success: false],
    the range error message and no results; when either of them parses to
    NaN the search answers 200 with [success: true]. *)
Theorem search_rejects_inverted_range :
  forall (store : list InventoryItem.t) (q c mn mx : value),
    let min := parseFloat (ToString mn) in
    let max := parseFloat (ToString mx) in
    (isNaN min = false -> isNaN max = false -> gt min max = true ->
     search store q c mn mx
     = {| status := 400;
          body := SearchFailure
            "Invalid price range: minPrice cannot be greater than maxPrice"
            [] |}) /\
    (isNaN min = true \/ isNaN max = true ->
     status (search store q c mn mx) = 200 /\
     success (search store q c mn mx) = true).
Proof.
  intros store q c mn mx min max. split.
  - intros Hmin Hmax Hgt.
    assert (E : invalidRange mn mx = true)
      by (apply invalidRange_true_iff; auto).
    unfold search; cbv zeta. rewrite E. reflexivity.
  - intros H.
    assert (E : invalidRange mn mx = false)
      by (destruct H; [ apply invalidRange_NaN_l | apply invalidRange_NaN_r ];
          assumption).
    rewrite (search_valid _ _ _ _ _ E). split; reflexivity.
Qed.

Lemma search_rejects_inverted_range_witness :
  search sample_inventory None None (Some "600") (Some "100")
  = {| status := 400;
       body := SearchFailure
         "Invalid price range: minPrice cannot be greater than maxPrice"
         [] |} /\
  (status (search sample_inventory None None (Some "abc") (Some "100")) = 200 /\
   success (search sample_inventory None None (Some "abc") (Some "100")) = true).
Proof.
  split.
  - apply (proj1 (search_rejects_inverted_range
                    sample_inventory None None (Some "600") (Some "100")));
      reflexivity.
  - apply (proj2 (search_rejects_inverted_range
                    sample_inventory None None (Some "abc") (Some "100"))).
    left; reflexivity.
Defined.

(** C3.  A price parameter that parses to NaN filters nothing and raises no
    error: the search succeeds and returns what the same search returns
    without that parameter.  The other bound still applies: of the records
    the name and category criteria let through, an unparsable [minPrice]
    with a [maxPrice] that parses keeps exactly those priced at most the
    maximum, an unparsable [maxPrice] with a [minPrice] that parses keeps
    exactly those priced at least the minimum, and two unparsable bounds
    keep them all.  With [minPrice = "abc"], a maximum that parses and no
    other criterion, the results are exactly the records of the inventory
    priced at most the maximum; likewise for [maxPrice = "abc"] and a
    minimum that parses. *)
Theorem unparsable_price_is_ignored :
  forall (store : list InventoryItem.t) (q c mn mx : value),
    (isNaN (parseFloat (ToString mn)) = true ->
     status (search store q c mn mx) = 200 /\
     success (search store q c mn mx) = true /\
     results (search store q c mn mx) = results (search store q c None mx) /\
     results (search store q c mn mx)
     = filterByMaxPrice mx (queryFilter store q c None None) /\
     (isNaN (parseFloat (ToString mx)) = false ->
      results (search store q c mn mx)
      = filter (fun item => le (InventoryItem.price item)
                               (parseFloat (ToString mx)))
               (queryFilter store q c None None)) /\
     (isNaN (parseFloat (ToString mx)) = true ->
      results (search store q c mn mx) = queryFilter store q c None None)) /\
    (isNaN (parseFloat (ToString mx)) = true ->
     status (search store q c mn mx) = 200 /\
     success (search store q c mn mx) = true /\
     results (search store q c mn mx) = results (search store q c mn None) /\
     results (search store q c mn mx)
     = filterByMinPrice mn (queryFilter store q c None None) /\
     (isNaN (parseFloat (ToString mn)) = false ->
      results (search store q c mn mx)
      = filter (fun item => ge (InventoryItem.price item)
                               (parseFloat (ToString mn)))
               (queryFilter store q c None None))) /\
    (isNaN (parseFloat (ToString mx)) = false ->
     results (search store None None (Some "abc") mx)
     = filter (fun item => le (InventoryItem.price item)
                              (parseFloat (ToString mx))) store) /\
    (isNaN (parseFloat (ToString mn)) = false ->
     results (search store None None mn (Some "abc"))
     = filter (fun item => ge (InventoryItem.price item)
                              (parseFloat (ToString mn))) store).
Proof.
  intros store q c mn mx. split; [ | split; [ | split ] ].
  - intros H.
    rewrite (search_valid _ _ _ _ _ (invalidRange_NaN_l mn mx H)).
    rewrite (search_valid store q c None mx eq_refl).
    unfold results, queryFilter; cbv zeta; simpl.
    rewrite (filterByMinPrice_NaN mn _ H).
    split; [ reflexivity | ]. split; [ reflexivity | ].
    split; [ reflexivity | ]. split; [ reflexivity | ]. split.
    + intros Hmx. apply filterByMaxPrice_number, Hmx.
    + intros Hmx. apply filterByMaxPrice_NaN, Hmx.
  - intros H.
    rewrite (search_valid _ _ _ _ _ (invalidRange_NaN_r mn mx H)).
    rewrite (search_valid store q c mn None
               (invalidRange_NaN_r mn None eq_refl)).
    unfold results, queryFilter; cbv zeta; simpl.
    rewrite (filterByMaxPrice_NaN mx _ H).
    split; [ reflexivity | ]. split; [ reflexivity | ].
    split; [ reflexivity | ]. split; [ reflexivity | ].
    intros Hmn. apply filterByMinPrice_number, Hmn.
  - intros H.
    rewrite (search_valid store None None (Some "abc") mx
               (invalidRange_NaN_l (Some "abc") mx eq_refl)).
    unfold results, queryFilter; cbv zeta; simpl.
    rewrite (filterByMinPrice_NaN (Some "abc") _ eq_refl).
    apply filterByMaxPrice_number, H.
  - intros H.
    rewrite (search_valid store None None mn (Some "abc")
               (invalidRange_NaN_r mn (Some "abc") eq_refl)).
    unfold results, queryFilter; cbv zeta; simpl.
    rewrite (filterByMaxPrice_NaN (Some "abc") _ eq_refl).
    apply filterByMinPrice_number, H.
Qed.

Lemma unparsable_price_is_ignored_witness :
  results (search sample_inventory None None (Some "abc") (Some "100"))
  = filter (fun item => le (InventoryItem.price item) (parseFloat "100"))
           sample_inventory /\
  results (search sample_inventory None None (Some "100") (Some "abc"))
  = filter (fun item => ge (InventoryItem.price item) (parseFloat "100"))
           sample_inventory /\
  results (search sample_inventory (Some "a") (Some "furniture")
                  (Some "abc") (Some "100"))
  = filter (fun item => le (InventoryItem.price item) (parseFloat "100"))
           (queryFilter sample_inventory (Some "a") (Some "furniture")
                        None None) /\
  results (search sample_inventory (Some "a") (Some "furniture")
                  (Some "100") (Some "x"))
  = filter (fun item => ge (InventoryItem.price item) (parseFloat "100"))
           (queryFilter sample_inventory (Some "a") (Some "furniture")
                        None None) /\
  results (search sample_inventory None None (Some "45") (Some "x"))
  = results (search sample_inventory None None (Some "45") None).
Proof.
  pose proof (unparsable_price_is_ignored
                sample_inventory None None (Some "100") (Some "100"))
    as (_ & _ & Hmax & Hmin).
  pose proof (unparsable_price_is_ignored
                sample_inventory (Some "a") (Some "furniture")
                (Some "abc") (Some "100"))
    as (Hl & _).
  pose proof (unparsable_price_is_ignored
                sample_inventory (Some "a") (Some "furniture")
                (Some "100") (Some "x"))
    as (_ & Hr & _).
  pose proof (unparsable_price_is_ignored
                sample_inventory None None (Some "45") (Some "x"))
    as (_ & Hr' & _).
  destruct (Hl eq_refl) as (_ & _ & _ & _ & Hl5 & _).
  destruct (Hr eq_refl) as (_ & _ & _ & _ & Hr5).
  destruct (Hr' eq_refl) as (_ & _ & Hr3 & _).
  split; [ exact (Hmax eq_refl) | ].
  split; [ exact (Hmin eq_refl) | ].
  split; [ exact (Hl5 eq_refl) | ].
  split; [ exact (Hr5 eq_refl) | exact Hr3 ].
Defined.

Lemma queryFilter_prices store q c mn mx :
  queryFilter store q c mn mx
  = filterByMaxPrice mx (filterByMinPrice mn (queryFilter store q c None None)).
Proof. reflexivity. Qed.

Lemma invalidRange_ordered (mn mx : value) :
  gt (parseFloat (ToString mn)) (parseFloat (ToString mx)) = false ->
  invalidRange mn mx = false.
Proof.
  intros H. destruct (invalidRange mn mx) eqn:E; [ | reflexivity ].
  apply invalidRange_true_iff in E. destruct E as (_ & _ & E). congruence.
Qed.

(** C6.  With a [minPrice] that parses to 100 and a [maxPrice] that parses
    to 500 (such as "100" and "500") the search succeeds and keeps, of the
    records the other criteria let through, exactly those whose price [p] has
    [100 <= p] and [p <= 500]; with no other criterion these are the records
    of the inventory in that range.  Both bounds are inclusive: a record of
    the inventory priced exactly 100 or exactly 500 is returned. *)
Theorem price_range_100_500_inclusive :
  forall (store : list InventoryItem.t) (q c : value) (smin smax : string),
    parseFloat smin = of_Z 100 ->
    parseFloat smax = of_Z 500 ->
    let in_range (item : InventoryItem.t) :=
      le (of_Z 100) (InventoryItem.price item) &&
      le (InventoryItem.price item) (of_Z 500) in
    status (search store q c (Some smin) (Some smax)) = 200 /\
    success (search store q c (Some smin) (Some smax)) = true /\
    results (search store q c (Some smin) (Some smax))
    = filter in_range (queryFilter store q c None None) /\
    results (search store None None (Some smin) (Some smax))
    = filter in_range store /\
    (forall item,
        In item (results (search store None None (Some smin) (Some smax)))
        <-> In item store /\
            le (of_Z 100) (InventoryItem.price item) = true /\
            le (InventoryItem.price item) (of_Z 500) = true) /\
    (forall item,
        In item store ->
        InventoryItem.price item = of_Z 100 \/
        InventoryItem.price item = of_Z 500 ->
        In item (results (search store None None (Some smin) (Some smax)))).
Proof.
  intros store q c smin smax Hmin Hmax in_range.
  assert (V : invalidRange (Some smin) (Some smax) = false).
  { apply invalidRange_ordered. simpl ToString. rewrite Hmin, Hmax.
    vm_compute. reflexivity. }
  assert (R : forall q c,
             results (search store q c (Some smin) (Some smax))
             = filter in_range (queryFilter store q c None None)).
  { intros q' c'. rewrite (search_valid _ _ _ _ _ V).
    unfold results; simpl body. rewrite queryFilter_prices.
    rewrite filterByMaxPrice_number, filterByMinPrice_number;
      simpl ToString; rewrite ?Hmin, ?Hmax;
      [ | vm_compute; reflexivity | vm_compute; reflexivity ].
    apply filter_filter. }
  assert (M : forall item,
             In item (results (search store None None (Some smin) (Some smax)))
             <-> In item store /\
                 le (of_Z 100) (InventoryItem.price item) = true /\
                 le (InventoryItem.price item) (of_Z 500) = true).
  { intros item. rewrite R. change (queryFilter store None None None None)
      with store. rewrite filter_In. subst in_range; cbv beta.
    rewrite andb_true_iff. tauto. }
  split; [ rewrite (search_valid _ _ _ _ _ V); reflexivity | ].
  split; [ rewrite (search_valid _ _ _ _ _ V); reflexivity | ].
  split; [ apply R | ].
  split; [ apply (R None None) | ].
  split; [ exact M | ].
  intros item Hin [ E | E ]; apply (proj2 (M item)); rewrite E;
    (split; [ assumption | split; vm_compute; reflexivity ]).
Qed.

Lemma price_range_100_500_inclusive_witness :
  results (search sample_inventory None None (Some "100") (Some "500"))
  = [ sample_item 2 "Rocq in a Hurry" "Books" 100;
      sample_item 4 "Office chair" "Furniture" 500 ] /\
  In (sample_item 2 "Rocq in a Hurry" "Books" 100)
     (results (search sample_inventory None None (Some "1e2") (Some "500.0"))).
Proof.
  pose proof (price_range_100_500_inclusive
                sample_inventory None None "100" "500" eq_refl eq_refl)
    as (_ & _ & _ & H & _).
  pose proof (price_range_100_500_inclusive
                sample_inventory None None "1e2" "500.0" eq_refl eq_refl)
    as (_ & _ & _ & _ & _ & H').
  split.
  - rewrite H. reflexivity.
  - apply H'; [ right; left; reflexivity | left; reflexivity ].
Defined.


(** ** [includes] finds exactly the contiguous occurrences *)

Lemma prefix_iff_append (t s : string) :
  prefix t s = true <-> exists after : string, s = t ++ after.
Proof.
  revert s. induction t as [ | a t IH ]; intros s.
  - split; [ intros _; exists s; reflexivity | ].
    intros _. destruct s; reflexivity.
  - destruct s as [ | b s ]; simpl.
    + split; [ discriminate | intros [ after H ]; discriminate ].
    + destruct (ascii_dec a b) as [ -> | Hab ].
      * rewrite IH. split; intros [ after H ]; exists after; congruence.
      * split; [ discriminate | intros [ after H ]; congruence ].
Qed.

Lemma includes_empty (t : string) : includes "" t = prefix t "" || false.
Proof. reflexivity. Qed.

Lemma includes_String (c : ascii) (s t : string) :
  includes (String c s) t = prefix t (String c s) || includes s t.
Proof. reflexivity. Qed.

Lemma includes_iff_Infix (s t : string) :
  includes s t = true <-> Infix t s.
Proof.
  unfold Infix. induction s as [ | c s IH ].
  - rewrite includes_empty, orb_false_r, prefix_iff_append. split.
    + intros [ after H ]. exists "", after. exact H.
    + intros (before & after & H). destruct before; [ | discriminate ].
      exists after. exact H.
  - rewrite includes_String, orb_true_iff, IH, prefix_iff_append. split.
    + intros [ [ after H ] | (before & after & H) ].
      * exists "", after. exact H.
      * exists (String c before), after. simpl. congruence.
    + intros (before & after & H). destruct before as [ | b before ].
      * left. exists after. exact H.
      * right. exists before, after. simpl in H. congruence.
Qed.

Lemma matchesQuery_nonempty (text q : string) :
  q <> "" ->
  matchesQuery text (Some q) = includes (toLowerCase text) (toLowerCase q).
Proof.
  intros H. unfold matchesQuery.
  apply ToBoolean_Some in H. rewrite H. reflexivity.
Qed.

(** C4.  For a non-empty name criterion [q], [matchesQuery] accepts a text
    exactly when the lower-cased [q] occurs as a contiguous run inside the
    lower-cased text, and the name step of the search keeps exactly the
    records whose product name is accepted.  "lap" matches
    "Laptop Dell XPS 15".  An empty or absent criterion accepts every text
    and leaves the list of records unchanged. *)
Theorem name_filter_is_case_insensitive_substring :
  (forall text q : string,
      q <> "" ->
      (matchesQuery text (Some q) = true
       <-> Infix (toLowerCase q) (toLowerCase text))) /\
  (forall (l : list InventoryItem.t) (q : string) (item : InventoryItem.t),
      q <> "" ->
      (In item (filterByName (Some q) l)
       <-> In item l /\
           Infix (toLowerCase q)
                 (toLowerCase (InventoryItem.product_name item)))) /\
  matchesQuery "Laptop Dell XPS 15" (Some "lap") = true /\
  (forall text : string,
      matchesQuery text (Some "") = true /\ matchesQuery text None = true) /\
  (forall l : list InventoryItem.t,
      filterByName (Some "") l = l /\ filterByName None l = l).
Proof.
  split; [ | split; [ | split; [ | split ] ] ].
  - intros text q Hq.
    rewrite (matchesQuery_nonempty text q Hq). apply includes_iff_Infix.
  - intros l q item Hq. unfold filterByName.
    rewrite (proj2 (ToBoolean_Some q) Hq), filter_In.
    rewrite (matchesQuery_nonempty _ q Hq), includes_iff_Infix. tauto.
  - vm_compute. reflexivity.
  - intros text. split; reflexivity.
  - intros l. split; reflexivity.
Qed.

Lemma name_filter_is_case_insensitive_substring_witness :
  (matchesQuery "Laptop Dell XPS 15" (Some "DELL") = true
   <-> Infix (toLowerCase "DELL") (toLowerCase "Laptop Dell XPS 15")) /\
  (In (sample_item 3 "USB cable" "Electronics" 5)
      (filterByName (Some "Cab") sample_inventory)
   <-> In (sample_item 3 "USB cable" "Electronics" 5) sample_inventory /\
       Infix (toLowerCase "Cab") (toLowerCase "USB cable")).
Proof.
  split.
  - apply (proj1 name_filter_is_case_insensitive_substring
             "Laptop Dell XPS 15" "DELL").
    discriminate.
  - apply (proj1 (proj2 name_filter_is_case_insensitive_substring)
             sample_inventory "Cab" (sample_item 3 "USB cable" "Electronics" 5)).
    discriminate.
Defined.

(** ** The category step *)

Lemma filterByCategory_applied (c : string) (l : list InventoryItem.t) :
  c <> "" -> c <> "all" ->
  filterByCategory (Some c) l
  = filter (fun item =>
              toLowerCase (InventoryItem.category item) =? toLowerCase c) l.
Proof.
  intros Hne Hall. unfold filterByCategory.
  rewrite (proj2 (ToBoolean_Some c) Hne).
  rewrite (proj2 (String.eqb_neq c "all") Hall). reflexivity.
Qed.

Lemma filter_none {A : Type} (f : A -> bool) (l : list A) :
  (forall x, In x l -> f x = false) -> filter f l = [].
Proof.
  induction l as [ | x l IH ]; intros H; simpl; [ reflexivity | ].
  rewrite (H x (or_introl eq_refl)). apply IH.
  intros y Hy. apply H. right. exact Hy.
Qed.

Lemma Subseq_nil_r {A : Type} (l : list A) : Subseq l [] -> l = [].
Proof. intros H. inversion H. reflexivity. Qed.

(** C5, as the code has it.  A search with [category = "all"] returns the
    same response as the search without a category, up to the echoed
    category; in particular the same results.  For a category criterion that
    is neither empty nor "all", a record passes the category step exactly
    when its lower-cased category equals the lower-cased criterion.  An
    empty category, like an absent one, filters nothing. *)
Theorem category_all_is_no_filter :
  (forall (store : list InventoryItem.t) (q mn mx : value),
      results (search store q (Some "all") mn mx)
      = results (search store q None mn mx) /\
      status (search store q (Some "all") mn mx)
      = status (search store q None mn mx) /\
      queryFilter store q (Some "all") mn mx
      = queryFilter store q None mn mx) /\
  (forall (c : string) (l : list InventoryItem.t) (item : InventoryItem.t),
      c <> "" -> c <> "all" ->
      (In item (filterByCategory (Some c) l)
       <-> In item l /\
           toLowerCase (InventoryItem.category item) = toLowerCase c)) /\
  (forall l : list InventoryItem.t,
      filterByCategory (Some "") l = l /\ filterByCategory None l = l).
Proof.
  split; [ | split ].
  - intros store q mn mx. unfold search; cbv zeta.
    change (queryFilter store q (Some "all") mn mx)
      with (queryFilter store q None mn mx).
    destruct (invalidRange mn mx); repeat split.
  - intros c l item Hne Hall.
    rewrite (filterByCategory_applied c l Hne Hall), filter_In.
    rewrite String.eqb_eq. tauto.
  - intros l. split; reflexivity.
Qed.

Lemma category_all_is_no_filter_witness :
  In (sample_item 2 "Rocq in a Hurry" "Books" 100)
     (filterByCategory (Some "BOOKS") sample_inventory)
  <-> In (sample_item 2 "Rocq in a Hurry" "Books" 100) sample_inventory /\
      toLowerCase "Books" = toLowerCase "BOOKS".
Proof.
  apply (proj1 (proj2 category_all_is_no_filter)
           "BOOKS" sample_inventory
           (sample_item 2 "Rocq in a Hurry" "Books" 100));
    discriminate.
Defined.

(** C5, as the claim has it, fails at the empty category: [category = ""] is
    not the sentinel, yet the step keeps every record, also one whose
    category is not the empty string. *)
Lemma category_empty_string_keeps_all :
  ~ (forall (c : string) (l : list InventoryItem.t) (item : InventoryItem.t),
        c <> "all" ->
        (In item (filterByCategory (Some c) l)
         <-> In item l /\
             toLowerCase (InventoryItem.category item) = toLowerCase c)).
Proof.
  intros H.
  specialize (H "" sample_inventory
                (sample_item 2 "Rocq in a Hurry" "Books" 100)).
  destruct H as [ H _ ]; [ discriminate | ].
  destruct H as [ _ H ]; [ right; left; reflexivity | discriminate H ].
Qed.

(** C9.  The test for the sentinel compares the strings exactly.  Of the
    spellings of "all" that differ only in letter case, "all" itself leaves
    the list unfiltered; every other one, such as "All" or "ALL", selects the
    records whose lower-cased category is "all", so that on an inventory with
    no such category the search returns no record. *)
Theorem category_sentinel_is_case_sensitive :
  forall (store : list InventoryItem.t) (q mn mx : value) (c : string),
    toLowerCase c = "all" ->
    (c = "all" ->
     queryFilter store q (Some c) mn mx = queryFilter store q None mn mx) /\
    (c <> "all" ->
     (forall l : list InventoryItem.t,
         filterByCategory (Some c) l
         = filter (fun item =>
                     toLowerCase (InventoryItem.category item) =? "all") l) /\
     ((forall item, In item store ->
                    toLowerCase (InventoryItem.category item) <> "all") ->
      results (search store q (Some c) mn mx) = [])).
Proof.
  intros store q mn mx c Hlow. split.
  - intros ->. reflexivity.
  - intros Hall.
    assert (Hne : c <> "") by (intros ->; discriminate Hlow).
    assert (Hstep : forall l : list InventoryItem.t,
               filterByCategory (Some c) l
               = filter (fun item =>
                           toLowerCase (InventoryItem.category item)
                           =? "all") l).
    { intros l. rewrite (filterByCategory_applied c l Hne Hall), Hlow.
      reflexivity. }
    split; [ exact Hstep | ].
    intros Hnone.
    destruct (search_results_cases store q (Some c) mn mx) as [ E | E ];
      rewrite E; [ reflexivity | ].
    unfold queryFilter; cbv zeta.
    assert (Hcat : filterByCategory (Some c) (filterByName q store) = []).
    { rewrite Hstep. apply filter_none. intros item Hin.
      apply String.eqb_neq, Hnone.
      apply (Subseq_In _ _ (filterByName_Subseq store q)), Hin. }
    rewrite Hcat. apply Subseq_nil_r.
    eapply Subseq_trans;
      [ apply filterByMaxPrice_Subseq | apply filterByMinPrice_Subseq ].
Qed.

Lemma category_sentinel_is_case_sensitive_witness :
  results (search sample_inventory None (Some "All") None None) = [] /\
  results (search sample_inventory None (Some "ALL") None None) = [] /\
  filterByCategory (Some "All") sample_inventory
  = filter (fun item => toLowerCase (InventoryItem.category item) =? "all")
           sample_inventory /\
  queryFilter sample_inventory None (Some "all") None None
  = queryFilter sample_inventory None None None None.
Proof.
  assert (Hnone : forall item, In item sample_inventory ->
                    toLowerCase (InventoryItem.category item) <> "all").
  { intros item Hin. simpl in Hin.
    repeat (destruct Hin as [ <- | Hin ]; [ discriminate | ]).
    destruct Hin. }
  pose proof (category_sentinel_is_case_sensitive
                sample_inventory None None None "All" eq_refl) as [ _ HAll ].
  pose proof (category_sentinel_is_case_sensitive
                sample_inventory None None None "ALL" eq_refl) as [ _ HALL ].
  pose proof (category_sentinel_is_case_sensitive
                sample_inventory None None None "all" eq_refl) as [ Hall _ ].
  destruct HAll as [ HAll1 HAll2 ]; [ discriminate | ].
  destruct HALL as [ _ HALL2 ]; [ discriminate | ].
  split; [ exact (HAll2 Hnone) | ].
  split; [ exact (HALL2 Hnone) | ].
  split; [ exact (HAll1 sample_inventory) | exact (Hall eq_refl) ].
Defined.

(** ** Distinct categories in ascending order *)

Lemma ascii_compare_lt_trans (a b c : ascii) :
  Ascii.compare a b = Lt -> Ascii.compare b c = Lt -> Ascii.compare a c = Lt.
Proof.
  unfold Ascii.compare. rewrite !N.compare_lt_iff. apply N.lt_trans.
Qed.

Lemma compare_lt_trans (s1 s2 s3 : string) :
  String.compare s1 s2 = Lt -> String.compare s2 s3 = Lt ->
  String.compare s1 s3 = Lt.
Proof.
  revert s2 s3.
  induction s1 as [ | a s1 IH ]; intros [ | b s2 ] [ | c s3 ]; simpl;
    try discriminate; try reflexivity.
  destruct (Ascii.compare a b) eqn:Eab; try discriminate;
    destruct (Ascii.compare b c) eqn:Ebc; try discriminate; intros H12 H23.
  - apply Ascii.compare_eq_iff in Eab, Ebc. subst.
    assert (E : Ascii.compare c c = Eq)
      by (unfold Ascii.compare; apply N.compare_refl).
    rewrite E. exact (IH _ _ H12 H23).
  - apply Ascii.compare_eq_iff in Eab. subst. rewrite Ebc. reflexivity.
  - apply Ascii.compare_eq_iff in Ebc. subst. rewrite Eab. reflexivity.
  - rewrite (ascii_compare_lt_trans _ _ _ Eab Ebc). reflexivity.
Qed.

Lemma code_unit_lt_trans (a b c : string) :
  code_unit_lt a b -> code_unit_lt b c -> code_unit_lt a c.
Proof.
  unfold code_unit_lt, String.ltb. intros Hab Hbc.
  destruct (String.compare a b) eqn:Eab; try discriminate.
  destruct (String.compare b c) eqn:Ebc; try discriminate.
  rewrite (compare_lt_trans _ _ _ Eab Ebc). reflexivity.
Qed.

Lemma code_unit_lt_irrefl (a : string) : ~ code_unit_lt a a.
Proof.
  unfold code_unit_lt, String.ltb. intros H.
  pose proof (String.compare_antisym a a) as E.
  destruct (String.compare a a); simpl in E; discriminate.
Qed.

Lemma not_lt_distinct (x y : string) :
  String.ltb x y = false -> x <> y -> code_unit_lt y x.
Proof.
  unfold code_unit_lt, String.ltb. intros H Hne.
  rewrite (String.compare_antisym y x).
  destruct (String.compare x y) eqn:E; simpl.
  - apply String.compare_eq_iff in E. contradiction.
  - discriminate.
  - reflexivity.
Qed.

Lemma In_sort_insert (x z : string) (l : list string) :
  In z (sort_insert x l) <-> z = x \/ In z l.
Proof.
  induction l as [ | y l IH ]; simpl.
  - intuition congruence.
  - destruct (String.ltb x y); simpl; rewrite ?IH; intuition congruence.
Qed.

Lemma sort_insert_sorted (x : string) (l : list string) :
  StronglySorted code_unit_lt l -> ~ In x l ->
  StronglySorted code_unit_lt (sort_insert x l).
Proof.
  induction 1 as [ | y l Hl IH Hy ]; intros Hx; simpl.
  - constructor; constructor.
  - destruct (String.ltb x y) eqn:E.
    + constructor; [ constructor; assumption | ].
      constructor; [ exact E | ].
      rewrite Forall_forall in Hy |- *. intros z Hz.
      apply (code_unit_lt_trans x y z E), Hy, Hz.
    + assert (Hyx : code_unit_lt y x).
      { apply not_lt_distinct; [ exact E | ].
        intros ->. apply Hx. left. reflexivity. }
      constructor.
      * apply IH. intros Hin. apply Hx. right. exact Hin.
      * rewrite Forall_forall in Hy |- *. intros z Hz.
        apply In_sort_insert in Hz. destruct Hz as [ -> | Hz ];
          [ exact Hyx | apply Hy, Hz ].
Qed.

Lemma sort_fold_spec (xs acc : list string) :
  StronglySorted code_unit_lt acc -> NoDup xs ->
  (forall x, In x xs -> ~ In x acc) ->
  StronglySorted code_unit_lt
    (fold_left (fun acc x => sort_insert x acc) xs acc) /\
  (forall z, In z (fold_left (fun acc x => sort_insert x acc) xs acc)
             <-> In z acc \/ In z xs).
Proof.
  revert acc. induction xs as [ | x xs IH ]; intros acc Hs Hnd Hfresh; simpl.
  - split; [ exact Hs | intuition ].
  - inversion Hnd as [ | ? ? Hx Hnd' ]; subst.
    destruct (IH (sort_insert x acc)) as [ IH1 IH2 ].
    + apply sort_insert_sorted; [ exact Hs | ].
      apply Hfresh. left. reflexivity.
    + exact Hnd'.
    + intros y Hy Hin. apply In_sort_insert in Hin.
      destruct Hin as [ -> | Hin ]; [ contradiction | ].
      apply (Hfresh y); [ right; exact Hy | exact Hin ].
    + split; [ exact IH1 | ].
      intros z. rewrite IH2, In_sort_insert. intuition congruence.
Qed.

Lemma Set_add_spec (s : list string) (x : string) :
  NoDup s ->
  NoDup (Set_add s x) /\ (forall z, In z (Set_add s x) <-> In z s \/ z = x).
Proof.
  intros Hs. unfold Set_add.
  destruct (existsb (String.eqb x) s) eqn:E.
  - split; [ exact Hs | ]. intros z. split; [ tauto | ].
    intros [ H | -> ]; [ exact H | ].
    apply existsb_exists in E. destruct E as (y & Hy & Exy).
    apply String.eqb_eq in Exy. subst. exact Hy.
  - split.
    + assert (Hx : ~ In x s).
      { intros Hin. assert (T : existsb (String.eqb x) s = true).
        { apply existsb_exists. exists x. split;
            [ exact Hin | apply String.eqb_refl ]. }
        congruence. }
      clear E. induction Hs as [ | y s Hy Hs IH ]; simpl.
      * constructor; [ intros [] | constructor ].
      * constructor.
        -- rewrite in_app_iff. simpl. intros [ H | [ H | [] ] ].
           ++ contradiction.
           ++ apply Hx. left. symmetry. exact H.
        -- apply IH. intros Hin. apply Hx. right. exact Hin.
    + intros z. rewrite in_app_iff. simpl. intuition congruence.
Qed.

Lemma Set_fold_spec (xs acc : list string) :
  NoDup acc ->
  NoDup (fold_left Set_add xs acc) /\
  (forall z, In z (fold_left Set_add xs acc) <-> In z acc \/ In z xs).
Proof.
  revert acc. induction xs as [ | x xs IH ]; intros acc Hacc; simpl.
  - split; [ exact Hacc | intuition ].
  - destruct (Set_add_spec acc x Hacc) as [ H1 H2 ].
    destruct (IH (Set_add acc x) H1) as [ IH1 IH2 ].
    split; [ exact IH1 | ].
    intros z. rewrite IH2, H2. intuition congruence.
Qed.

Lemma StronglySorted_NoDup (l : list string) :
  StronglySorted code_unit_lt l -> NoDup l.
Proof.
  induction 1 as [ | x l _ IH Hx ]; constructor; [ | exact IH ].
  intros Hin. rewrite Forall_forall in Hx.
  exact (code_unit_lt_irrefl x (Hx x Hin)).
Qed.

(** C7.  [getCategories], which [/categories] sends back with status 200,
    lists exactly the category values present in the inventory, each once,
    in strictly ascending lexicographic order: every entry is below all the
    entries after it.  On an inventory whose categories are
    Electronics, Books, Electronics the list is Books, Electronics. *)
Theorem getCategories_distinct_sorted :
  forall store : list InventoryItem.t,
    (forall c : string,
        In c (getCategories store)
        <-> exists item, In item store /\ InventoryItem.category item = c) /\
    NoDup (getCategories store) /\
    StronglySorted code_unit_lt (getCategories store) /\
    categories store
    = {| status := 200; body := CategoriesSuccess (getCategories store) |} /\
    map InventoryItem.category three_item_inventory
    = ["Electronics"; "Books"; "Electronics"] /\
    getCategories three_item_inventory = ["Books"; "Electronics"].
Proof.
  intros store. unfold getCategories; cbv zeta.
  destruct (Set_fold_spec (map InventoryItem.category store) [] (NoDup_nil _))
    as [ Hnd Hin ].
  fold (Set_of (map InventoryItem.category store)) in Hnd, Hin.
  destruct (sort_fold_spec (Set_of (map InventoryItem.category store)) []
              (SSorted_nil _) Hnd (fun _ _ H => H))
    as [ Hs Hm ].
  fold (sort (Set_of (map InventoryItem.category store))) in Hs, Hm.
  split; [ | split; [ | split; [ | split; [ | split ] ] ] ].
  - intros c. rewrite Hm, Hin, in_map_iff. simpl.
    split.
    + intros [ [] | [ [] | (item & E & H) ] ]. exists item. tauto.
    + intros (item & H & E). right. right. exists item. tauto.
  - apply StronglySorted_NoDup, Hs.
  - exact Hs.
  - reflexivity.
  - reflexivity.
  - vm_compute. reflexivity.
Qed.

(** * Further properties of the backend *)

(** ** The search as one pass over the inventory *)

Lemma filterByName_filter (q : value) (l : list InventoryItem.t) :
  filterByName q l = filter (nameOk q) l.
Proof.
  unfold filterByName, nameOk. destruct (ToBoolean q);
    [ reflexivity | symmetry; apply filter_true ].
Qed.

Lemma filterByCategory_filter (c : value) (l : list InventoryItem.t) :
  filterByCategory c l = filter (categoryOk c) l.
Proof.
  unfold filterByCategory, categoryOk. destruct c as [ c | ].
  - destruct (ToBoolean (Some c) && negb (c =? "all"));
      [ reflexivity | symmetry; apply filter_true ].
  - symmetry; apply filter_true.
Qed.

Lemma filterByMinPrice_filter (v : value) (l : list InventoryItem.t) :
  filterByMinPrice v l = filter (minPriceOk v) l.
Proof.
  unfold filterByMinPrice, minPriceOk; cbv zeta.
  destruct (defined_nonempty v); [ | symmetry; apply filter_true ].
  destruct (negb (isNaN (parseFloat (ToString v))));
    [ reflexivity | symmetry; apply filter_true ].
Qed.

Lemma filterByMaxPrice_filter (v : value) (l : list InventoryItem.t) :
  filterByMaxPrice v l = filter (maxPriceOk v) l.
Proof.
  unfold filterByMaxPrice, maxPriceOk; cbv zeta.
  destruct (defined_nonempty v); [ | symmetry; apply filter_true ].
  destruct (negb (isNaN (parseFloat (ToString v))));
    [ reflexivity | symmetry; apply filter_true ].
Qed.

Lemma queryFilter_filter store q c mn mx :
  queryFilter store q c mn mx = filter (satisfies q c mn mx) store.
Proof.
  unfold queryFilter; cbv zeta.
  rewrite filterByName_filter, filterByCategory_filter,
          filterByMinPrice_filter, filterByMaxPrice_filter.
  rewrite !filter_filter. apply filter_ext. intros item.
  unfold satisfies. rewrite !andb_assoc. reflexivity.
Qed.

Lemma nameOk_iff (q : value) (item : InventoryItem.t) :
  nameOk q item = true <->
  (forall s, q = Some s -> s <> "" ->
             Infix (toLowerCase s)
                   (toLowerCase (InventoryItem.product_name item))).
Proof.
  unfold nameOk. destruct q as [ s | ].
  - destruct (ToBoolean (Some s)) eqn:E.
    + apply ToBoolean_Some in E.
      rewrite (matchesQuery_nonempty _ s E), includes_iff_Infix. split.
      * intros H s' [= <-] _. exact H.
      * intros H. apply (H s eq_refl E).
    + split; [ | reflexivity ]. intros _ s' [= <-] Hne.
      apply ToBoolean_Some in Hne. congruence.
  - split; [ intros _ s' [=] | reflexivity ].
Qed.

Lemma categoryOk_iff (c : value) (item : InventoryItem.t) :
  categoryOk c item = true <->
  (forall s, c = Some s -> s <> "" -> s <> "all" ->
             toLowerCase (InventoryItem.category item) = toLowerCase s).
Proof.
  unfold categoryOk. destruct c as [ s | ].
  - destruct (ToBoolean (Some s)) eqn:E; simpl.
    + apply ToBoolean_Some in E.
      destruct (String.eqb_spec s "all") as [ Hall | Hall ]; simpl.
      * split; [ | reflexivity ]. intros _ s' [= <-] _ H. contradiction.
      * rewrite String.eqb_eq. split.
        -- intros H s' [= <-] _ _. exact H.
        -- intros H. apply (H s eq_refl E Hall).
    + split; [ | reflexivity ]. intros _ s' [= <-] Hne.
      apply ToBoolean_Some in Hne. congruence.
  - split; [ intros _ s' [=] | reflexivity ].
Qed.

Lemma minPriceOk_iff (v : value) (item : InventoryItem.t) :
  minPriceOk v item = true <->
  (isNaN (parseFloat (ToString v)) = false ->
   ge (InventoryItem.price item) (parseFloat (ToString v)) = true).
Proof.
  unfold minPriceOk; cbv zeta. rewrite defined_nonempty_ToBoolean.
  destruct (ToBoolean v) eqn:E.
  - destruct (isNaN (parseFloat (ToString v))); simpl.
    + split; [ discriminate | reflexivity ].
    + split; [ intros H _; exact H | intros H; apply H; reflexivity ].
  - apply isNaN_parse_falsy in E. rewrite E.
    split; [ discriminate | reflexivity ].
Qed.

Lemma maxPriceOk_iff (v : value) (item : InventoryItem.t) :
  maxPriceOk v item = true <->
  (isNaN (parseFloat (ToString v)) = false ->
   le (InventoryItem.price item) (parseFloat (ToString v)) = true).
Proof.
  unfold maxPriceOk; cbv zeta. rewrite defined_nonempty_ToBoolean.
  destruct (ToBoolean v) eqn:E.
  - destruct (isNaN (parseFloat (ToString v))); simpl.
    + split; [ discriminate | reflexivity ].
    + split; [ intros H _; exact H | intros H; apply H; reflexivity ].
  - apply isNaN_parse_falsy in E. rewrite E.
    split; [ discriminate | reflexivity ].
Qed.

(** X1.  The filtered list holds exactly the records of the inventory that
    meet every criterion in force: a non-empty [q] must occur, lower-cased,
    inside the lower-cased product name; a category that is neither empty
    nor "all" must equal the record's category up to letter case; a
    [minPrice] that parses must be at most the price and a [maxPrice] that
    parses at least the price.  Nothing else decides whether a record is
    returned. *)
Theorem queryFilter_sound_and_complete :
  forall (store : list InventoryItem.t) (q c mn mx : value)
         (item : InventoryItem.t),
    In item (queryFilter store q c mn mx) <->
    In item store /\
    (forall s, q = Some s -> s <> "" ->
               Infix (toLowerCase s)
                     (toLowerCase (InventoryItem.product_name item))) /\
    (forall s, c = Some s -> s <> "" -> s <> "all" ->
               toLowerCase (InventoryItem.category item) = toLowerCase s) /\
    (isNaN (parseFloat (ToString mn)) = false ->
     ge (InventoryItem.price item) (parseFloat (ToString mn)) = true) /\
    (isNaN (parseFloat (ToString mx)) = false ->
     le (InventoryItem.price item) (parseFloat (ToString mx)) = true).
Proof.
  intros store q c mn mx item.
  rewrite queryFilter_filter, filter_In. unfold satisfies.
  rewrite !andb_true_iff.
  rewrite nameOk_iff, categoryOk_iff, minPriceOk_iff, maxPriceOk_iff.
  tauto.
Qed.

Lemma Subseq_filter_weaken {A : Type} (f g : A -> bool) (l : list A) :
  (forall x, f x = true -> g x = true) -> Subseq (filter f l) (filter g l).
Proof.
  intros H. induction l as [ | x l IH ]; simpl; [ constructor | ].
  destruct (f x) eqn:Ef.
  - rewrite (H x Ef). apply Subseq_keep, IH.
  - destruct (g x); [ apply Subseq_skip, IH | exact IH ].
Qed.

Lemma Subseq_length {A : Type} (l1 l2 : list A) :
  Subseq l1 l2 -> List.length l1 <= List.length l2.
Proof. induction 1; simpl; lia. Qed.

(** X2.  Supplying more criteria only narrows a search: if a request differs
    from another only by parameters the other leaves out, its filtered list
    is an ordered subsequence of the other's, and so is no longer. *)
Theorem more_criteria_narrow_the_search :
  forall (store : list InventoryItem.t) (q c mn mx q' c' mn' mx' : value),
    q' = None \/ q' = q ->
    c' = None \/ c' = c ->
    mn' = None \/ mn' = mn ->
    mx' = None \/ mx' = mx ->
    Subseq (queryFilter store q c mn mx) (queryFilter store q' c' mn' mx') /\
    List.length (queryFilter store q c mn mx)
    <= List.length (queryFilter store q' c' mn' mx').
Proof.
  intros store q c mn mx q' c' mn' mx' Hq Hc Hmn Hmx.
  assert (H : Subseq (queryFilter store q c mn mx)
                     (queryFilter store q' c' mn' mx')).
  { rewrite !queryFilter_filter. apply Subseq_filter_weaken.
    intros item. unfold satisfies. rewrite !andb_true_iff.
    intros [ [ [ H1 H2 ] H3 ] H4 ].
    destruct Hq as [ -> | -> ], Hc as [ -> | -> ],
             Hmn as [ -> | -> ], Hmx as [ -> | -> ];
      repeat split; solve [ assumption | reflexivity ]. }
  split; [ exact H | apply Subseq_length, H ].
Qed.

Lemma more_criteria_narrow_the_search_witness :
  Subseq (queryFilter sample_inventory (Some "a") (Some "furniture")
                      (Some "40") (Some "100"))
         (queryFilter sample_inventory None (Some "furniture") None
                      (Some "100")) /\
  List.length (queryFilter sample_inventory (Some "a") (Some "furniture")
                           (Some "40") (Some "100"))
  <= List.length (queryFilter sample_inventory None (Some "furniture") None
                              (Some "100")).
Proof.
  apply (more_criteria_narrow_the_search sample_inventory
           (Some "a") (Some "furniture") (Some "40") (Some "100")
           None (Some "furniture") None (Some "100")).
  - left; reflexivity.
  - right; reflexivity.
  - left; reflexivity.
  - right; reflexivity.
Defined.

(** X3.  Searching within the results of a search: filtering a filtered list
    by a second set of criteria gives the records of the inventory that meet
    both sets, whichever set is applied first; filtering again by the same
    criteria changes nothing. *)
Theorem searches_compose :
  forall (store : list InventoryItem.t) (q c mn mx q' c' mn' mx' : value),
    queryFilter (queryFilter store q c mn mx) q' c' mn' mx'
    = queryFilter (queryFilter store q' c' mn' mx') q c mn mx /\
    (forall item,
        In item (queryFilter (queryFilter store q c mn mx) q' c' mn' mx')
        <-> In item (queryFilter store q c mn mx) /\
            In item (queryFilter store q' c' mn' mx')) /\
    queryFilter (queryFilter store q c mn mx) q c mn mx
    = queryFilter store q c mn mx.
Proof.
  intros store q c mn mx q' c' mn' mx'.
  split; [ | split ].
  - rewrite !queryFilter_filter, !filter_filter.
    apply filter_ext. intros item. apply andb_comm.
  - intros item. rewrite !queryFilter_filter, !filter_In. tauto.
  - rewrite !queryFilter_filter, filter_filter.
    apply filter_ext. intros item. apply andb_diag.
Qed.

(** X4.  Whether a record is returned does not depend on the other records:
    the search over two inventories put end to end returns the results over
    the first followed by the results over the second. *)
Theorem search_distributes_over_append :
  forall (store1 store2 : list InventoryItem.t) (q c mn mx : value),
    queryFilter (store1 ++ store2) q c mn mx
    = (queryFilter store1 q c mn mx ++ queryFilter store2 q c mn mx)%list /\
    results (search (store1 ++ store2) q c mn mx)
    = (results (search store1 q c mn mx)
       ++ results (search store2 q c mn mx))%list.
Proof.
  intros store1 store2 q c mn mx.
  assert (H : queryFilter (store1 ++ store2) q c mn mx
              = (queryFilter store1 q c mn mx
                 ++ queryFilter store2 q c mn mx)%list).
  { rewrite !queryFilter_filter. apply filter_app. }
  split; [ exact H | ].
  unfold search; cbv zeta. destruct (invalidRange mn mx);
    [ reflexivity | exact H ].
Qed.

(** X5.  For a request whose parameters are each absent or given once as a
    string, over an inventory whose records carry all their fields (the
    requests and inventories of this model; a repeated parameter reaches the
    handler as an array and is outside it), the response of [/search] has
    one of two shapes.  Either it is a success with status 200 whose count
    is the number of results, which is at most the size of the inventory; or
    it is a failure with status 400, a non-empty error message and no
    results at all.  Which one depends on the two price parameters only. *)
Theorem search_response_shape :
  forall (store : list InventoryItem.t) (q c mn mx : value),
    let r := search store q c mn mx in
    (invalidRange mn mx = false /\
     status r = 200 /\ success r = true /\
     count r = Some (List.length (results r)) /\
     List.length (results r) <= List.length store /\
     error_of r = None) \/
    (invalidRange mn mx = true /\
     status r = 400 /\ success r = false /\
     results r = [] /\ count r = None /\
     exists e, error_of r = Some e /\ e <> "").
Proof.
  intros store q c mn mx r. subst r.
  destruct (invalidRange mn mx) eqn:E.
  - right. unfold search; cbv zeta. rewrite E.
    repeat split. eexists. split; [ reflexivity | discriminate ].
  - left. rewrite (search_valid _ _ _ _ _ E).
    repeat split. simpl.
    apply Subseq_length, queryFilter_Subseq.
Qed.

(** ** Comparison of numbers *)

Lemma SFcompare_refl (x : number) :
  SFcompare x x = Some Eq \/ SFcompare x x = None.
Proof.
  destruct x as [ s | s | | s m e ]; simpl; auto.
  - destruct s; auto.
  - left. destruct s; rewrite Z.compare_refl, Pos.compare_cont_refl;
      reflexivity.
Qed.

Lemma SFcompare_antisym (x y : number) :
  SFcompare y x = option_map CompOpp (SFcompare x y).
Proof.
  destruct x as [ s | s | | s m e ], y as [ s' | s' | | s' m' e' ];
    simpl; try reflexivity;
    try (destruct s; reflexivity); try (destruct s'; reflexivity);
    try (destruct s, s'; reflexivity).
  pose proof (Pos.compare_cont_antisym m m' Eq) as H. simpl in H.
  destruct s, s'; simpl; try reflexivity;
    rewrite (Z.compare_antisym e e');
    destruct (e ?= e')%Z; simpl; try reflexivity;
    rewrite <- H; destruct (Pos.compare_cont Eq m m'); reflexivity.
Qed.

Lemma gt_irrefl (x : number) : gt x x = false.
Proof.
  unfold gt, SFltb. destruct (SFcompare_refl x) as [ -> | -> ]; reflexivity.
Qed.

Lemma ge_le_SFeqb (p x : number) : ge p x && le p x = SFeqb p x.
Proof.
  unfold ge, le, SFleb, SFeqb. rewrite (SFcompare_antisym p x).
  destruct (SFcompare p x) as [ [ | | ] | ]; reflexivity.
Qed.

Lemma gt_not_NaN (x y : number) :
  gt x y = true -> isNaN x = false /\ isNaN y = false.
Proof.
  unfold gt, SFltb. destruct x, y; simpl; try discriminate; auto.
Qed.

(** X6.  Equal bounds are accepted, the comparison of the validation being
    strict: when [minPrice] and [maxPrice] parse to the same number the
    search succeeds and keeps, of the records the other criteria let
    through, exactly those whose price equals that number. *)
Theorem equal_bounds_select_exact_price :
  forall (store : list InventoryItem.t) (q c : value) (smin smax : string),
    isNaN (parseFloat smin) = false ->
    parseFloat smax = parseFloat smin ->
    status (search store q c (Some smin) (Some smax)) = 200 /\
    results (search store q c (Some smin) (Some smax))
    = filter (fun item => SFeqb (InventoryItem.price item) (parseFloat smin))
             (queryFilter store q c None None).
Proof.
  intros store q c smin smax Hmin Hmax.
  assert (V : invalidRange (Some smin) (Some smax) = false).
  { apply invalidRange_ordered. simpl ToString. rewrite Hmax.
    apply gt_irrefl. }
  rewrite (search_valid _ _ _ _ _ V). split; [ reflexivity | ].
  unfold results; simpl body. rewrite queryFilter_prices.
  rewrite filterByMaxPrice_number, filterByMinPrice_number;
    simpl ToString; rewrite ?Hmax; try exact Hmin.
  rewrite filter_filter. apply filter_ext. intros item.
  apply ge_le_SFeqb.
Qed.

Lemma equal_bounds_select_exact_price_witness :
  status (search sample_inventory None None (Some "45") (Some "4.5e1")) = 200 /\
  results (search sample_inventory None None (Some "45") (Some "4.5e1"))
  = filter (fun item => SFeqb (InventoryItem.price item) (parseFloat "45"))
           (queryFilter sample_inventory None None None None).
Proof.
  apply (equal_bounds_select_exact_price
           sample_inventory None None "45" "4.5e1");
    vm_compute; reflexivity.
Defined.

(** ** Lower-casing and occurrences *)

Lemma append_assoc (a b c : string) : (a ++ b) ++ c = a ++ b ++ c.
Proof. induction a as [ | x a IH ]; simpl; [ | rewrite IH ]; reflexivity. Qed.

Lemma length_append (a b : string) :
  String.length (a ++ b) = String.length a + String.length b.
Proof. induction a as [ | x a IH ]; simpl; [ | rewrite IH ]; reflexivity. Qed.

Lemma toLowerCase_empty_iff (s : string) : toLowerCase s = "" <-> s = "".
Proof. destruct s; simpl; split; congruence. Qed.

Lemma Infix_refl (s : string) : Infix s s.
Proof.
  exists "", "". simpl. induction s as [ | x s IH ]; simpl;
    [ reflexivity | congruence ].
Qed.

Lemma Infix_trans (a b c : string) : Infix a b -> Infix b c -> Infix a c.
Proof.
  intros (p & r & ->) (p' & r' & ->).
  exists (p' ++ p), (r ++ r'). rewrite !append_assoc. reflexivity.
Qed.

Lemma Infix_length (t s : string) :
  Infix t s -> String.length t <= String.length s.
Proof. intros (p & r & ->). rewrite !length_append. lia. Qed.

Lemma Infix_empty (t : string) : Infix t "" -> t = "".
Proof.
  intros H. apply Infix_length in H. destruct t; [ reflexivity | ].
  simpl in H. lia.
Qed.

Lemma ToBoolean_toLowerCase (q q' : string) :
  toLowerCase q = toLowerCase q' -> ToBoolean (Some q) = ToBoolean (Some q').
Proof.
  intros H. destruct q, q'; simpl in *; try reflexivity; discriminate.
Qed.

(** X7.  A query that contains another one, both taken lower-cased, never
    brings a record back: if the lower-cased [q] occurs inside the
    lower-cased [q'], the records matching [q'] are, in order, among those
    matching [q]. *)
Theorem containing_query_narrows :
  forall (l : list InventoryItem.t) (q q' : string),
    Infix (toLowerCase q) (toLowerCase q') ->
    Subseq (filterByName (Some q') l) (filterByName (Some q) l) /\
    List.length (filterByName (Some q') l)
    <= List.length (filterByName (Some q) l).
Proof.
  intros l q q' Hinf.
  assert (H : Subseq (filterByName (Some q') l) (filterByName (Some q) l)).
  { rewrite !filterByName_filter. apply Subseq_filter_weaken.
    intros item. rewrite !nameOk_iff. intros H s [= <-] Hne.
    apply Infix_trans with (b := toLowerCase q'); [ exact Hinf | ].
    apply (H q' eq_refl). intros ->.
    apply Infix_empty in Hinf.
    apply (proj1 (toLowerCase_empty_iff q)) in Hinf. contradiction. }
  split; [ exact H | apply Subseq_length, H ].
Qed.

Lemma containing_query_narrows_witness :
  Subseq (filterByName (Some "LAPTOP d") sample_inventory)
         (filterByName (Some "Lap") sample_inventory) /\
  List.length (filterByName (Some "LAPTOP d") sample_inventory)
  <= List.length (filterByName (Some "Lap") sample_inventory).
Proof.
  apply (containing_query_narrows sample_inventory "Lap" "LAPTOP d").
  exists "", "top d". reflexivity.
Defined.

(** X8.  A product is found by its name in any letter case: if the
    lower-cased [q] equals the lower-cased product name of a record of the
    inventory, the search for [q] alone returns that record; and more
    generally so whenever the lower-cased [q] occurs inside the lower-cased
    product name. *)
Theorem product_found_by_its_name_in_any_case :
  forall (store : list InventoryItem.t) (item : InventoryItem.t) (q : string),
    In item store ->
    (toLowerCase q = toLowerCase (InventoryItem.product_name item) ->
     In item (results (search store (Some q) None None None))) /\
    (Infix (toLowerCase q) (toLowerCase (InventoryItem.product_name item)) ->
     In item (results (search store (Some q) None None None))).
Proof.
  intros store item q Hin.
  assert (H : Infix (toLowerCase q)
                    (toLowerCase (InventoryItem.product_name item)) ->
              In item (results (search store (Some q) None None None))).
  { intros Hinf.
    rewrite (search_valid store (Some q) None None None eq_refl).
    unfold results; simpl body.
    change (queryFilter store (Some q) None None None)
      with (filterByName (Some q) store).
    rewrite filterByName_filter, filter_In. split; [ exact Hin | ].
    apply nameOk_iff. intros s [= <-] _. exact Hinf. }
  split; [ | exact H ].
  intros E. apply H. rewrite E. apply Infix_refl.
Qed.

Lemma product_found_by_its_name_in_any_case_witness :
  In (sample_item 1 "Laptop Dell XPS 15" "Electronics" 1200)
     (results (search sample_inventory (Some "LAPTOP DELL xps 15")
                      None None None)) /\
  In (sample_item 1 "Laptop Dell XPS 15" "Electronics" 1200)
     (results (search sample_inventory (Some "dell XPS") None None None)).
Proof.
  split.
  - apply (proj1 (product_found_by_its_name_in_any_case
                    sample_inventory
                    (sample_item 1 "Laptop Dell XPS 15" "Electronics" 1200)
                    "LAPTOP DELL xps 15" (or_introl eq_refl))).
    reflexivity.
  - apply (proj2 (product_found_by_its_name_in_any_case
                    sample_inventory
                    (sample_item 1 "Laptop Dell XPS 15" "Electronics" 1200)
                    "dell XPS" (or_introl eq_refl))).
    exists "laptop ", " 15". reflexivity.
Defined.

(** X9.  The name and category criteria are read up to letter case: two
    requests whose [q] agree after lower-casing, and whose categories agree
    after lower-casing and are both different from the exact string "all",
    get the same filtered list. *)
Theorem criteria_are_case_insensitive :
  forall (store : list InventoryItem.t) (q q' c c' : string) (mn mx : value),
    toLowerCase q = toLowerCase q' ->
    toLowerCase c = toLowerCase c' ->
    c <> "all" -> c' <> "all" ->
    queryFilter store (Some q) (Some c) mn mx
    = queryFilter store (Some q') (Some c') mn mx.
Proof.
  intros store q q' c c' mn mx Hq Hc Hall Hall'.
  rewrite !queryFilter_filter. apply filter_ext. intros item.
  unfold satisfies. f_equal. f_equal. f_equal.
  - unfold nameOk, matchesQuery.
    rewrite (ToBoolean_toLowerCase q q' Hq), Hq. reflexivity.
  - unfold categoryOk.
    rewrite (ToBoolean_toLowerCase c c' Hc), Hc.
    rewrite (proj2 (String.eqb_neq c "all") Hall).
    rewrite (proj2 (String.eqb_neq c' "all") Hall'). reflexivity.
Qed.

Lemma criteria_are_case_insensitive_witness :
  queryFilter sample_inventory (Some "LAMP") (Some "FURNITURE") None None
  = queryFilter sample_inventory (Some "Lamp") (Some "furniture") None None.
Proof.
  apply (criteria_are_case_insensitive
           sample_inventory "LAMP" "Lamp" "FURNITURE" "furniture" None None).
  - reflexivity.
  - reflexivity.
  - discriminate.
  - discriminate.
Defined.

(** X10.  A query that is longer than the text, both taken lower-cased,
    never matches it. *)
Theorem longer_lowered_query_never_matches :
  forall text q : string,
    String.length (toLowerCase text) < String.length (toLowerCase q) ->
    matchesQuery text (Some q) = false.
Proof.
  intros text q Hlen.
  assert (Hne : q <> "") by (intros ->; simpl in Hlen; lia).
  rewrite (matchesQuery_nonempty text q Hne).
  destruct (includes (toLowerCase text) (toLowerCase q)) eqn:E;
    [ | reflexivity ].
  apply includes_iff_Infix, Infix_length in E. lia.
Qed.

Lemma longer_lowered_query_never_matches_witness :
  matchesQuery "USB" (Some "USB cable") = false.
Proof.
  apply (longer_lowered_query_never_matches "USB" "USB cable").
  simpl. lia.
Defined.

(** ** The category list as a function of the set of categories *)

Lemma getCategories_spec (store : list InventoryItem.t) :
  StronglySorted code_unit_lt (getCategories store) /\
  (forall c, In c (getCategories store)
             <-> In c (map InventoryItem.category store)).
Proof.
  unfold getCategories; cbv zeta.
  destruct (Set_fold_spec (map InventoryItem.category store) [] (NoDup_nil _))
    as [ Hnd Hin ].
  fold (Set_of (map InventoryItem.category store)) in Hnd, Hin.
  destruct (sort_fold_spec (Set_of (map InventoryItem.category store)) []
              (SSorted_nil _) Hnd (fun _ _ H => H))
    as [ Hs Hm ].
  fold (sort (Set_of (map InventoryItem.category store))) in Hs, Hm.
  split; [ exact Hs | ].
  intros c. rewrite Hm, Hin. simpl. tauto.
Qed.

(** A strictly ascending list is determined by its elements. *)
Lemma StronglySorted_unique (l1 l2 : list string) :
  StronglySorted code_unit_lt l1 -> StronglySorted code_unit_lt l2 ->
  (forall x, In x l1 <-> In x l2) -> l1 = l2.
Proof.
  intros H1. revert l2.
  induction H1 as [ | a l1 H1 IH Ha ]; intros l2 H2 Hmem.
  - destruct l2 as [ | b l2 ]; [ reflexivity | ].
    destruct (proj2 (Hmem b) (or_introl eq_refl)).
  - destruct H2 as [ | b l2 H2 Hb ].
    + destruct (proj1 (Hmem a) (or_introl eq_refl)).
    + rewrite Forall_forall in Ha, Hb.
      assert (E : a = b).
      { destruct (proj1 (Hmem a) (or_introl eq_refl)) as [ E | Hin ];
          [ symmetry; exact E | ].
        destruct (proj2 (Hmem b) (or_introl eq_refl)) as [ E | Hin' ];
          [ exact E | ].
        exfalso. apply (code_unit_lt_irrefl a).
        apply (code_unit_lt_trans a b a); [ apply Ha, Hin' | apply Hb, Hin ]. }
      subst b. f_equal. apply IH; [ exact H2 | ].
      intros x. split; intros Hx.
      * destruct (proj1 (Hmem x) (or_intror Hx)) as [ E | Hin ];
          [ | exact Hin ].
        subst x. exfalso. exact (code_unit_lt_irrefl a (Ha a Hx)).
      * destruct (proj2 (Hmem x) (or_intror Hx)) as [ E | Hin ];
          [ | exact Hin ].
        subst x. exfalso. exact (code_unit_lt_irrefl a (Hb a Hx)).
Qed.

(** X11.  The category list depends on the inventory only through the set
    of category values in it: two inventories with the same category values
    get the same list, whatever the order and the multiplicity of their
    records.  In particular the list is unchanged when the inventory is
    rearranged, and it is never longer than the inventory. *)
Theorem getCategories_depends_on_the_set_only :
  (forall store1 store2 : list InventoryItem.t,
      (forall c, In c (map InventoryItem.category store1)
                 <-> In c (map InventoryItem.category store2)) ->
      getCategories store1 = getCategories store2) /\
  (forall store1 store2 : list InventoryItem.t,
      Permutation store1 store2 ->
      getCategories store1 = getCategories store2) /\
  (forall store1 store2 : list InventoryItem.t,
      getCategories (store1 ++ store2)%list
      = getCategories (store2 ++ store1)%list) /\
  (forall store : list InventoryItem.t,
      List.length (getCategories store) <= List.length store).
Proof.
  assert (Hset : forall store1 store2 : list InventoryItem.t,
             (forall c, In c (map InventoryItem.category store1)
                        <-> In c (map InventoryItem.category store2)) ->
             getCategories store1 = getCategories store2).
  { intros store1 store2 H.
    destruct (getCategories_spec store1) as [ Hs1 Hm1 ].
    destruct (getCategories_spec store2) as [ Hs2 Hm2 ].
    apply StronglySorted_unique; [ exact Hs1 | exact Hs2 | ].
    intros c. rewrite Hm1, Hm2. apply H. }
  split; [ exact Hset | ]. split; [ | split ].
  - intros store1 store2 HP. apply Hset. intros c.
    split; apply Permutation_in, Permutation_map;
      [ exact HP | symmetry; exact HP ].
  - intros store1 store2. apply Hset. intros c.
    rewrite !map_app, !in_app_iff. tauto.
  - intros store.
    destruct (getCategories_spec store) as [ Hs Hm ].
    rewrite <- (length_map InventoryItem.category store).
    apply NoDup_incl_length; [ apply StronglySorted_NoDup, Hs | ].
    intros c Hc. apply Hm, Hc.
Qed.

Lemma getCategories_depends_on_the_set_only_witness :
  getCategories three_item_inventory
  = getCategories (rev three_item_inventory ++ three_item_inventory)%list /\
  getCategories sample_inventory = getCategories (rev sample_inventory).
Proof.
  split.
  - apply (proj1 getCategories_depends_on_the_set_only
             three_item_inventory
             (rev three_item_inventory ++ three_item_inventory)%list).
    intros c. simpl. tauto.
  - apply (proj1 (proj2 getCategories_depends_on_the_set_only)
             sample_inventory (rev sample_inventory)).
    apply Permutation_rev.
Defined.

(** X12.  Every category that [/categories] lists leads to results: the
    search for a listed category alone returns every record of the
    inventory carrying that category, so at least one; and, the category
    being neither empty nor "all", every record it returns carries that
    category up to letter case. *)
Theorem listed_category_has_results :
  forall (store : list InventoryItem.t) (c : string),
    In c (getCategories store) ->
    (forall item, In item store -> InventoryItem.category item = c ->
                  In item (results (search store None (Some c) None None))) /\
    results (search store None (Some c) None None) <> [] /\
    (c <> "" -> c <> "all" ->
     forall item, In item (results (search store None (Some c) None None)) ->
                  toLowerCase (InventoryItem.category item) = toLowerCase c).
Proof.
  intros store c Hc.
  rewrite (search_valid store None (Some c) None None eq_refl).
  unfold results; simpl body.
  change (queryFilter store None (Some c) None None)
    with (filterByCategory (Some c) store).
  rewrite filterByCategory_filter.
  assert (Hall : forall item, In item store ->
                   InventoryItem.category item = c ->
                   In item (filter (categoryOk (Some c)) store)).
  { intros item Hin E. apply filter_In. split; [ exact Hin | ].
    apply categoryOk_iff. intros s [= <-] _ _. rewrite E. reflexivity. }
  split; [ exact Hall | ]. split.
  - apply (proj2 (getCategories_spec store)) in Hc.
    apply in_map_iff in Hc. destruct Hc as (item & E & Hin).
    intros Hnil. specialize (Hall item Hin E). rewrite Hnil in Hall.
    destruct Hall.
  - intros Hne Hnall item Hin. apply filter_In in Hin.
    destruct Hin as [ _ Hok ].
    apply (proj1 (categoryOk_iff (Some c) item) Hok c eq_refl Hne Hnall).
Qed.

Lemma listed_category_has_results_witness :
  results (search sample_inventory None (Some "Furniture") None None) <> [].
Proof.
  apply (listed_category_has_results sample_inventory "Furniture").
  vm_compute. right. right. left. reflexivity.
Defined.

(** * Properties of the client *)

(** ** What the backend reads of a request of [searchInventory] *)

Lemma req_query_queryParams_of (params : Frontend.SearchParams.t) :
  let queryParams := Frontend.queryParams_of params in
  Frontend.req_query queryParams "q"
  = or_null (Some (Frontend.SearchParams.searchQuery params)) /\
  Frontend.req_query queryParams "category"
  = (if Frontend.SearchParams.category params =? "all" then None
     else or_null (Some (Frontend.SearchParams.category params))) /\
  Frontend.req_query queryParams "minPrice"
  = or_null (Some (Frontend.SearchParams.minPrice params)) /\
  Frontend.req_query queryParams "maxPrice"
  = or_null (Some (Frontend.SearchParams.maxPrice params)).
Proof.
  destruct params as [ sq cat mn mx ].
  unfold Frontend.queryParams_of, or_null, ToBoolean; simpl.
  destruct (sq =? ""), (cat =? ""), (cat =? "all"), (mn =? ""), (mx =? "");
    repeat split; reflexivity.
Qed.

Lemma filterByName_or_null (q : value) (l : list InventoryItem.t) :
  filterByName (or_null q) l = filterByName q l.
Proof.
  unfold or_null. destruct (ToBoolean q) eqn:E; [ reflexivity | ].
  unfold filterByName. rewrite E. reflexivity.
Qed.

Lemma filterByCategory_sent (cat : string) (l : list InventoryItem.t) :
  filterByCategory
    (if cat =? "all" then None else or_null (Some cat)) l
  = filterByCategory (Some cat) l.
Proof.
  unfold filterByCategory, or_null, ToBoolean.
  destruct (cat =? "all") eqn:Eall, (cat =? "") eqn:E; simpl;
    rewrite ?Eall, ?E; reflexivity.
Qed.

Lemma filterByMinPrice_or_null (v : value) (l : list InventoryItem.t) :
  filterByMinPrice (or_null v) l = filterByMinPrice v l.
Proof.
  unfold or_null. destruct (ToBoolean v) eqn:E; [ reflexivity | ].
  unfold filterByMinPrice. rewrite (defined_nonempty_ToBoolean v), E.
  reflexivity.
Qed.

Lemma filterByMaxPrice_or_null (v : value) (l : list InventoryItem.t) :
  filterByMaxPrice (or_null v) l = filterByMaxPrice v l.
Proof.
  unfold or_null. destruct (ToBoolean v) eqn:E; [ reflexivity | ].
  unfold filterByMaxPrice. rewrite (defined_nonempty_ToBoolean v), E.
  reflexivity.
Qed.

Lemma invalidRange_or_null (mn mx : value) :
  invalidRange (or_null mn) (or_null mx) = invalidRange mn mx.
Proof.
  unfold or_null, invalidRange.
  destruct (ToBoolean mn) eqn:Emn, (ToBoolean mx) eqn:Emx; simpl;
    rewrite ?Emn, ?Emx; simpl; rewrite ?andb_false_r; reflexivity.
Qed.

Lemma get_search_queryParams_of (store : list InventoryItem.t)
                                (params : Frontend.SearchParams.t) :
  let mn := Some (Frontend.SearchParams.minPrice params) in
  let mx := Some (Frontend.SearchParams.maxPrice params) in
  invalidRange (Frontend.req_query (Frontend.queryParams_of params) "minPrice")
               (Frontend.req_query (Frontend.queryParams_of params) "maxPrice")
  = invalidRange mn mx /\
  queryFilter store
    (Frontend.req_query (Frontend.queryParams_of params) "q")
    (Frontend.req_query (Frontend.queryParams_of params) "category")
    (Frontend.req_query (Frontend.queryParams_of params) "minPrice")
    (Frontend.req_query (Frontend.queryParams_of params) "maxPrice")
  = queryFilter store
      (Some (Frontend.SearchParams.searchQuery params))
      (Some (Frontend.SearchParams.category params)) mn mx.
Proof.
  intros mn mx.
  destruct (req_query_queryParams_of params) as (Eq & Ec & Emn & Emx).
  cbv zeta in Eq, Ec, Emn, Emx. rewrite Eq, Ec, Emn, Emx.
  split; [ apply invalidRange_or_null | ].
  unfold queryFilter; cbv zeta.
  rewrite filterByName_or_null, filterByCategory_sent,
          filterByMinPrice_or_null, filterByMaxPrice_or_null.
  reflexivity.
Qed.

Lemma searchInventory_outcome (store : list InventoryItem.t)
                              (params : Frontend.SearchParams.t) :
  Frontend.searchInventory store params
  = if invalidRange (Some (Frontend.SearchParams.minPrice params))
                    (Some (Frontend.SearchParams.maxPrice params))
    then inr (Frontend.AxiosError 400)
    else inl (queryFilter store
                (Some (Frontend.SearchParams.searchQuery params))
                (Some (Frontend.SearchParams.category params))
                (Some (Frontend.SearchParams.minPrice params))
                (Some (Frontend.SearchParams.maxPrice params))).
Proof.
  destruct (get_search_queryParams_of store params) as [ EV EF ].
  cbv zeta in EV, EF.
  unfold Frontend.searchInventory, Frontend.get_search, search; cbv zeta.
  rewrite EV, EF. clear EV EF.
  destruct (invalidRange _ _); reflexivity.
Qed.

(** X13.  The request [searchInventory] sends names each parameter at most
    once, never with an empty value and never [category=all]; the backend
    therefore reads each field of the search parameters back unchanged when
    the field is non-empty (and, for the category, is not "all"), and reads
    [undefined] otherwise. *)
Theorem searchInventory_request_is_well_formed :
  forall params : Frontend.SearchParams.t,
    let queryParams := Frontend.queryParams_of params in
    NoDup (map fst queryParams) /\
    (forall name v, In (name, v) queryParams ->
                    v <> "" /\
                    In name ["q"; "category"; "minPrice"; "maxPrice"]) /\
    ~ In ("category", "all") queryParams /\
    Frontend.req_query queryParams "q"
    = or_null (Some (Frontend.SearchParams.searchQuery params)) /\
    Frontend.req_query queryParams "category"
    = (if Frontend.SearchParams.category params =? "all" then None
       else or_null (Some (Frontend.SearchParams.category params))) /\
    Frontend.req_query queryParams "minPrice"
    = or_null (Some (Frontend.SearchParams.minPrice params)) /\
    Frontend.req_query queryParams "maxPrice"
    = or_null (Some (Frontend.SearchParams.maxPrice params)).
Proof.
  intros params queryParams.
  split; [ | split; [ | split; [ | apply req_query_queryParams_of ] ] ];
    subst queryParams; destruct params as [ sq cat mn mx ];
    unfold Frontend.queryParams_of, ToBoolean; simpl.
  - destruct (sq =? ""), (cat =? ""), (cat =? "all"), (mn =? ""), (mx =? "");
      simpl; repeat constructor; simpl; intuition discriminate.
  - intros name v.
    destruct (String.eqb_spec sq ""), (String.eqb_spec cat ""),
             (String.eqb_spec cat "all"), (String.eqb_spec mn ""),
             (String.eqb_spec mx "");
      simpl; intros H;
      repeat (destruct H as [ [= <- <-] | H ]; [ split; [ assumption | simpl; tauto ] | ]);
      destruct H.
  - destruct (String.eqb_spec sq ""), (String.eqb_spec cat ""),
             (String.eqb_spec cat "all"), (String.eqb_spec mn ""),
             (String.eqb_spec mx "");
      simpl; intros H;
      repeat (destruct H as [ H | H ]; [ inversion H; congruence | ]);
      destruct H.
Qed.

(** X14.  Leaving empty fields and the category "all" out of the request
    changes nothing: [searchInventory] resolves with the list the backend
    filters for the four fields as they stand, whenever the backend accepts
    the price range of the fields.  When it does not, the backend answers
    400 and the promise rejects with the status error of axios; the branch
    that throws the [error] text of a body with [success: false] is never
    taken against this backend. *)
Theorem searchInventory_returns_the_filtered_list :
  forall (store : list InventoryItem.t) (params : Frontend.SearchParams.t),
    let q := Some (Frontend.SearchParams.searchQuery params) in
    let c := Some (Frontend.SearchParams.category params) in
    let mn := Some (Frontend.SearchParams.minPrice params) in
    let mx := Some (Frontend.SearchParams.maxPrice params) in
    (invalidRange mn mx = false ->
     Frontend.searchInventory store params
     = inl (queryFilter store q c mn mx)) /\
    (invalidRange mn mx = true ->
     Frontend.searchInventory store params = inr (Frontend.AxiosError 400)) /\
    (forall message,
        Frontend.searchInventory store params
        <> inr (Frontend.Error message)).
Proof.
  intros store params q c mn mx. subst q c mn mx.
  rewrite (searchInventory_outcome store params).
  destruct (invalidRange _ _).
  - split; [ discriminate | ]. split; [ reflexivity | discriminate ].
  - split; [ reflexivity | ]. split; discriminate.
Qed.

Lemma searchInventory_returns_the_filtered_list_witness :
  Frontend.searchInventory sample_inventory
    {| Frontend.SearchParams.searchQuery := "";
       Frontend.SearchParams.category := "all";
       Frontend.SearchParams.minPrice := "40";
       Frontend.SearchParams.maxPrice := "" |}
  = inl (queryFilter sample_inventory
           (Some "") (Some "all") (Some "40") (Some "")) /\
  Frontend.searchInventory sample_inventory
    {| Frontend.SearchParams.searchQuery := "";
       Frontend.SearchParams.category := "all";
       Frontend.SearchParams.minPrice := "600";
       Frontend.SearchParams.maxPrice := "100" |}
  = inr (Frontend.AxiosError 400).
Proof.
  split.
  - apply (proj1 (searchInventory_returns_the_filtered_list
                    sample_inventory
                    {| Frontend.SearchParams.searchQuery := "";
                       Frontend.SearchParams.category := "all";
                       Frontend.SearchParams.minPrice := "40";
                       Frontend.SearchParams.maxPrice := "" |})).
    reflexivity.
  - apply (proj1 (proj2 (searchInventory_returns_the_filtered_list
                           sample_inventory
                           {| Frontend.SearchParams.searchQuery := "";
                              Frontend.SearchParams.category := "all";
                              Frontend.SearchParams.minPrice := "600";
                              Frontend.SearchParams.maxPrice := "100" |}))).
    reflexivity.
Defined.

(** ** The form *)

Lemma rangeRejected_invalidRange (st : Frontend.Home.state) :
  Frontend.Home.rangeRejected st
  = invalidRange (Some (Frontend.Home.minPrice st))
                 (Some (Frontend.Home.maxPrice st)).
Proof.
  unfold Frontend.Home.rangeRejected, invalidRange; cbv zeta. simpl ToString.
  destruct (ToBoolean (Some (Frontend.Home.minPrice st))
            && ToBoolean (Some (Frontend.Home.maxPrice st)));
    [ simpl | reflexivity ].
  destruct (gt (parseFloat (Frontend.Home.minPrice st))
               (parseFloat (Frontend.Home.maxPrice st))) eqn:E.
  - apply gt_not_NaN in E. destruct E as [ -> -> ]. reflexivity.
  - rewrite andb_false_r. reflexivity.
Qed.

(** X15.  The form and the backend agree on the price range: [handleSearch]
    refuses the fields exactly when the backend would answer them with 400,
    although the form does not test for NaN.  A refused submission sets the
    validation message and leaves the committed search parameters, hence
    the displayed search, untouched; an accepted one commits the four fields
    as they are and clears the message. *)
Theorem handleSearch_agrees_with_backend :
  forall (store : list InventoryItem.t) (st : Frontend.Home.state),
    let r := search store
                    (Some (Frontend.Home.searchQuery st))
                    (Some (Frontend.Home.category st))
                    (Some (Frontend.Home.minPrice st))
                    (Some (Frontend.Home.maxPrice st)) in
    let st' := Frontend.Home.handleSearch st in
    (status r = 400 ->
     Frontend.Home.searchParams st' = Frontend.Home.searchParams st /\
     Frontend.Home.validationError st'
     = "Minimum price cannot be greater than maximum price") /\
    (status r = 200 ->
     Frontend.Home.searchParams st'
     = {| Frontend.SearchParams.searchQuery := Frontend.Home.searchQuery st;
          Frontend.SearchParams.category := Frontend.Home.category st;
          Frontend.SearchParams.minPrice := Frontend.Home.minPrice st;
          Frontend.SearchParams.maxPrice := Frontend.Home.maxPrice st |} /\
     Frontend.Home.validationError st' = "") /\
    (status r = 400 \/ status r = 200) /\
    Frontend.Home.searchQuery st' = Frontend.Home.searchQuery st /\
    Frontend.Home.category st' = Frontend.Home.category st /\
    Frontend.Home.minPrice st' = Frontend.Home.minPrice st /\
    Frontend.Home.maxPrice st' = Frontend.Home.maxPrice st.
Proof.
  intros store st r st'. subst r st'.
  unfold Frontend.Home.handleSearch, search; cbv zeta.
  rewrite (rangeRejected_invalidRange st).
  destruct (invalidRange _ _); simpl.
  - split; [ intros _; split; reflexivity | ].
    split; [ discriminate | ]. repeat split. left; reflexivity.
  - split; [ discriminate | ].
    split; [ intros _; split; reflexivity | ]. repeat split.
    right; reflexivity.
Qed.

Lemma handleSearch_agrees_with_backend_witness :
  Frontend.Home.searchParams
    (Frontend.Home.handleSearch
       (Frontend.Home.setMaxPrice "100"
          (Frontend.Home.setMinPrice "600" Frontend.Home.initial)))
  = Frontend.Home.searchParams Frontend.Home.initial /\
  Frontend.Home.validationError
    (Frontend.Home.handleSearch
       (Frontend.Home.setMaxPrice "abc"
          (Frontend.Home.setMinPrice "600" Frontend.Home.initial)))
  = "".
Proof.
  split.
  - apply (proj1 (handleSearch_agrees_with_backend
                    sample_inventory
                    (Frontend.Home.setMaxPrice "100"
                       (Frontend.Home.setMinPrice "600"
                          Frontend.Home.initial)))).
    reflexivity.
  - apply (proj1 (proj2 (handleSearch_agrees_with_backend
                           sample_inventory
                           (Frontend.Home.setMaxPrice "abc"
                              (Frontend.Home.setMinPrice "600"
                                 Frontend.Home.initial))))).
    reflexivity.
Defined.

Lemma step_committed_ok (st : Frontend.Home.state) (e : Frontend.Home.event) :
  committed_ok st -> committed_ok (Frontend.Home.step st e).
Proof.
  unfold committed_ok. intros H. destruct e; simpl; try exact H.
  - unfold Frontend.Home.handleSearch.
    rewrite (rangeRejected_invalidRange st).
    destruct (invalidRange (Some (Frontend.Home.minPrice st))
                           (Some (Frontend.Home.maxPrice st))) eqn:E;
      simpl; [ exact H | exact E ].
  - reflexivity.
Qed.

Lemma fold_step_committed_ok (es : list Frontend.Home.event)
                             (st : Frontend.Home.state) :
  committed_ok st -> committed_ok (fold_left Frontend.Home.step es st).
Proof.
  revert st. induction es as [ | e es IH ]; intros st H; simpl.
  - exact H.
  - apply IH, step_committed_ok, H.
Qed.

(** X16.  Whatever the user types, selects, submits or resets, starting from
    the first render, the committed search parameters never have a price
    range the backend rejects: the request for them is answered with status
    200 and [searchInventory] resolves with the list filtered for them.  The
    400 answer of the backend cannot be reached through the form. *)
Theorem form_never_sends_a_rejected_range :
  forall (store : list InventoryItem.t) (es : list Frontend.Home.event),
    let params := Frontend.Home.searchParams (Frontend.Home.run es) in
    status (Frontend.get_search store (Frontend.queryParams_of params)) = 200 /\
    Frontend.searchInventory store params
    = inl (queryFilter store
             (Some (Frontend.SearchParams.searchQuery params))
             (Some (Frontend.SearchParams.category params))
             (Some (Frontend.SearchParams.minPrice params))
             (Some (Frontend.SearchParams.maxPrice params))).
Proof.
  intros store es params.
  assert (H : committed_ok (Frontend.Home.run es))
    by (apply fold_step_committed_ok; reflexivity).
  unfold committed_ok in H. fold params in H.
  split.
  - unfold Frontend.get_search.
    destruct (get_search_queryParams_of store params) as [ EV _ ].
    cbv zeta in EV. rewrite search_valid; [ reflexivity | ].
    rewrite EV. exact H.
  - rewrite (searchInventory_outcome store params), H. reflexivity.
Qed.

(** X17.  Reset, from any state of the form, gives back the state of the
    first render, and the search then displayed is the whole inventory in
    its order. *)
Theorem reset_shows_the_whole_inventory :
  forall (store : list InventoryItem.t) (st : Frontend.Home.state),
    Frontend.Home.handleReset st = Frontend.Home.initial /\
    Frontend.searchInventory store
      (Frontend.Home.searchParams (Frontend.Home.handleReset st))
    = inl store.
Proof.
  intros store st. split; [ reflexivity | ].
  rewrite (searchInventory_outcome store _). reflexivity.
Qed.

Lemma listed_category_filter_nonempty (store : list InventoryItem.t)
                                      (c : string) :
  In c (getCategories store) -> filterByCategory (Some c) store <> [].
Proof.
  intros Hc. apply (proj2 (getCategories_spec store)) in Hc.
  apply in_map_iff in Hc. destruct Hc as (item & E & Hin).
  intros Hnil.
  assert (H : In item (filterByCategory (Some c) store)).
  { rewrite filterByCategory_filter. apply filter_In. split; [ exact Hin | ].
    apply categoryOk_iff. intros s [= <-] _ _. rewrite E. reflexivity. }
  rewrite Hnil in H. destruct H.
Qed.

(** X18.  No option of the category menu leads to an empty page:
    [fetchCategories] resolves with the category list of the backend, and
    for each category [c] in it the search for [c] with the other fields
    empty resolves with a non-empty list, which is the inventory filtered by
    that category. *)
Theorem category_menu_options_have_results :
  forall (store : list InventoryItem.t),
    Frontend.fetchCategories store = inl (getCategories store) /\
    (forall c, In c (getCategories store) ->
       Frontend.searchInventory store
         {| Frontend.SearchParams.searchQuery := "";
            Frontend.SearchParams.category := c;
            Frontend.SearchParams.minPrice := "";
            Frontend.SearchParams.maxPrice := "" |}
       = inl (filterByCategory (Some c) store) /\
       filterByCategory (Some c) store <> []).
Proof.
  intros store. split; [ reflexivity | ].
  intros c Hc. split.
  - rewrite (searchInventory_outcome store _). reflexivity.
  - apply listed_category_filter_nonempty, Hc.
Qed.

Lemma category_menu_options_have_results_witness :
  Frontend.searchInventory sample_inventory
    {| Frontend.SearchParams.searchQuery := "";
       Frontend.SearchParams.category := "Books";
       Frontend.SearchParams.minPrice := "";
       Frontend.SearchParams.maxPrice := "" |}
  = inl (filterByCategory (Some "Books") sample_inventory) /\
  filterByCategory (Some "Books") sample_inventory <> [].
Proof.
  apply (proj2 (category_menu_options_have_results sample_inventory) "Books").
  vm_compute. left. reflexivity.
Defined.

(** * Further properties of the backend, continued *)

(** X19.  The category list covers every search: the category of any record
    a search returns is an entry of the list [/categories] sends. *)
Theorem results_categories_are_listed :
  forall (store : list InventoryItem.t) (q c mn mx : value)
         (item : InventoryItem.t),
    In item (results (search store q c mn mx)) ->
    In (InventoryItem.category item) (getCategories store).
Proof.
  intros store q c mn mx item Hin.
  apply (proj2 (getCategories_spec store)), in_map.
  destruct (search_results_cases store q c mn mx) as [ E | E ];
    rewrite E in Hin; [ destruct Hin | ].
  apply (Subseq_In _ _ (queryFilter_Subseq store q c mn mx)), Hin.
Qed.

Lemma results_categories_are_listed_witness :
  In "Furniture" (getCategories sample_inventory).
Proof.
  apply (results_categories_are_listed
           sample_inventory (Some "lamp") None None (Some "50")
           (sample_item 5 "Desk lamp" "Furniture" 45)).
  vm_compute. left. reflexivity.
Defined.

(** ** Tightening the price bounds *)

Lemma SFleb_trans (x y z : number) :
  SFleb x y = true -> SFleb y z = true -> SFleb x z = true.
Proof.
  unfold SFleb.
  destruct x as [ sx | sx | | sx mx ex ], y as [ sy | sy | | sy my ey ],
           z as [ sz | sz | | sz mz ez ];
    simpl; try discriminate; try reflexivity;
    try (destruct sx; simpl; try discriminate; try reflexivity);
    try (destruct sy; simpl; try discriminate; try reflexivity);
    try (destruct sz; simpl; try discriminate; try reflexivity).
  all: change (Pos.compare_cont Eq) with Pos.compare.
  all: destruct (Z.compare_spec ex ey), (Z.compare_spec ey ez),
                (Z.compare_spec ex ez);
    simpl; try discriminate; try reflexivity; try lia.
  all: destruct (Pos.compare_spec mx my), (Pos.compare_spec my mz),
                (Pos.compare_spec mx mz);
    simpl; try discriminate; try reflexivity; try lia.
Qed.

Lemma SFleb_not_NaN (x y : number) :
  SFleb x y = true -> isNaN x = false /\ isNaN y = false.
Proof.
  unfold SFleb. destruct x, y; simpl; try discriminate; auto.
Qed.

(** X20.  Tightening a price bound only narrows the search: raising a
    [minPrice] that parses, or lowering a [maxPrice] that parses, gives an
    ordered subsequence of the former filtered list. *)
Theorem tighter_price_bounds_narrow :
  forall (store : list InventoryItem.t) (q c v : value) (s s' : string),
    le (parseFloat s) (parseFloat s') = true ->
    Subseq (queryFilter store q c (Some s') v)
           (queryFilter store q c (Some s) v) /\
    Subseq (queryFilter store q c v (Some s))
           (queryFilter store q c v (Some s')).
Proof.
  intros store q c v s s' Hle.
  destruct (SFleb_not_NaN _ _ Hle) as [ Hs Hs' ].
  rewrite !queryFilter_filter.
  split; apply Subseq_filter_weaken; intros item; unfold satisfies;
    rewrite !andb_true_iff; intros [ [ [ H1 H2 ] H3 ] H4 ];
    repeat split; try assumption.
  - apply minPriceOk_iff. intros _.
    apply (proj1 (minPriceOk_iff (Some s') item)) in H3; [ | exact Hs' ].
    unfold ge in *. simpl ToString in *.
    apply (SFleb_trans _ _ _ Hle H3).
  - apply maxPriceOk_iff. intros _.
    apply (proj1 (maxPriceOk_iff (Some s) item)) in H4; [ | exact Hs ].
    unfold le in *. simpl ToString in *.
    apply (SFleb_trans _ _ _ H4 Hle).
Qed.

Lemma tighter_price_bounds_narrow_witness :
  Subseq (queryFilter sample_inventory None None (Some "100") None)
         (queryFilter sample_inventory None None (Some "45") None) /\
  Subseq (queryFilter sample_inventory None None None (Some "45"))
         (queryFilter sample_inventory None None None (Some "100")).
Proof.
  apply (tighter_price_bounds_narrow
           sample_inventory None None None "45" "100").
  vm_compute. reflexivity.
Defined.
